(** * Baltimore dashboard and data pipeline: a shallow embedding

    The development follows the two source files of the repository:

    - [Baltimore_Dashboard_Updated.py], the Streamlit dashboard, is
      embedded in [Module Dashboard];
    - [full_pipeline.py], the sequential pipeline driver, is embedded in
      [Module Pipeline].

    Conventions of the embedding.

    - A pandas/NumPy [float64] is an [option Qc]: [Some q] is the exact
      rational [q], [None] is NaN (the missing-value marker).  Arithmetic
      in [F] and [Series] is exact.  What is proved over it is what does
      not depend on rounding: which branch is taken, which values are
      selected, compared or skipped, and the results on inputs whose sums
      and quotients are exact in binary64.
    - Where rounding decides, the code is read in IEEE 754 binary64
      instead: [Float64] gives the mean of a column as a sum of doubles
      in row order.
    - The square root, which exact rationals are not closed under, is a
      parameter [sqrt] of the definitions that need it (standard
      deviation and Pearson correlation).
    - Python exceptions are values of [exn]; code that may raise lives in
      the [result] monad.  Division raises [ZeroDivisionError] on a zero
      divisor, as Python's float division does; this is the strict
      reading (a NumPy scalar would return [inf]).
    - Streamlit and Plotly calls display values; a view is modelled by
      the values it computes and hands to them, and by the two checks of
      these calls that can stop it: the range check of [st.progress] and
      the column check of [px.scatter].
    - A table has the identifier column [tract], as the data file of the
      repository does: it is a field of every row.  A table without it,
      on which the neighborhood explorer raises [KeyError] before
      anything else, is not a [DataFrame] of this development. *)

From Stdlib Require Import Ascii QArith Qcanon PrimFloat Uint63.
From stdpp Require Import base numbers list sorting strings gmap pretty.

(** ** Python exceptions *)

Inductive exn : Type :=
  | KeyError (key : string)
  | IndexError
  | ZeroDivisionError
  | FileNotFoundError (path : string)
  | ParserError (path : string)
  | ValueError (name : string)
  | StreamlitAPIException.

Inductive result (A : Type) : Type :=
  | Ok (a : A)
  | Raise (e : exn).
Arguments Ok {A} a.
Arguments Raise {A} e.

#[global] Instance result_ret : MRet result := λ A, Ok.
#[global] Instance result_bind : MBind result := λ A B f m,
  match m with
  | Ok a => f a
  | Raise e => Raise e
  end.
#[global] Instance result_fmap : FMap result := λ A B f m,
  match m with
  | Ok a => Ok (f a)
  | Raise e => Raise e
  end.

Definition is_Ok {A} (m : result A) : Prop := ∃ a, m = Ok a.

(** ** Floating-point values with NaN *)

Abbreviation float64 := (option Qc).
Abbreviation NaN := (@None Qc).

Definition qz (z : Z) : Qc := Qc_of_Z z.

Module F.
Local Open Scope Qc_scope.

Definition sub (a b : float64) : float64 := x ← a; y ← b; Some (x - y).
Definition add (a b : float64) : float64 := x ← a; y ← b; Some (x + y).
Definition mul (a b : float64) : float64 := x ← a; y ← b; Some (x * y).

(** The quotient, where the division is defined. *)
Definition quot (a b : float64) : float64 := x ← a; y ← b; Some (x / y).

(** [a / b]: raises on a zero divisor, otherwise propagates NaN. *)
Definition div (a b : float64) : result float64 :=
  match b with
  | Some y => if decide (y = 0) then Raise ZeroDivisionError else Ok (quot a b)
  | None => Ok NaN
  end.

(** [a != b]: every comparison with NaN but [!=] is false. *)
Definition ne (a b : float64) : bool :=
  match a, b with
  | Some x, Some y => bool_decide (x ≠ y)
  | _, _ => true
  end.

(** [a > b]. *)
Definition gt (a b : float64) : bool :=
  match a, b with
  | Some x, Some y => bool_decide (y < x)
  | _, _ => false
  end.

Definition Qc_abs (x : Qc) : Qc := if decide (0 ≤ x) then x else - x.

(** [abs(a)]. *)
Definition abs (a : float64) : float64 := Qc_abs <$> a.

(** Python's two-argument [min(a, b)]: [b] only when [b < a]. *)
Definition min (a b : float64) : float64 := if gt a b then b else a.

Definition notna (a : float64) : bool := bool_decide (is_Some a).
End F.

(** ** pandas Series and their reductions

    Every reduction skips NaN (pandas' default [skipna=True]) and is NaN
    when nothing is left to reduce. *)

Module Series.
Local Open Scope Qc_scope.

Abbreviation t := (list float64).

(** [s.dropna()] *)
Definition dropna (s : t) : t := filter is_Some s.

(** The non-missing values a reduction ranges over. *)
Definition valid (s : t) : list Qc := omap id s.

Definition total (v : list Qc) : Qc := foldr Qcplus 0 v.
Definition count (v : list Qc) : Qc := qz (Z.of_nat (length v)).

Definition Qc_min (a b : Qc) : Qc := if decide (a ≤ b) then a else b.
Definition Qc_max (a b : Qc) : Qc := if decide (a ≤ b) then b else a.

(** [s.mean()] *)
Definition mean (s : t) : float64 :=
  let v := valid s in
  if v is [] then NaN else Some (total v / count v).

(** [s.min()] and [s.max()] *)
Definition min (s : t) : float64 :=
  match valid s with
  | [] => NaN
  | x :: v => Some (foldl Qc_min x v)
  end.

Definition max (s : t) : float64 :=
  match valid s with
  | [] => NaN
  | x :: v => Some (foldl Qc_max x v)
  end.

(** [s.median()]: the middle of the sorted values, or the mean of the
    two middle ones. *)
Definition median (s : t) : float64 :=
  let v := merge_sort Qcle (valid s) in
  let n := length v in
  if (n =? 0)%nat then NaN
  else if Nat.odd n then v !! (n / 2)%nat
  else lo ← v !! (n / 2 - 1)%nat; hi ← v !! (n / 2)%nat; Some ((lo + hi) / 2).

(** Sample variance ([ddof=1]); undefined below two observations. *)
Definition var (s : t) : float64 :=
  let v := valid s in
  if (length v <=? 1)%nat then NaN
  else
    let m := total v / count v in
    Some (total ((λ x, (x - m) * (x - m)) <$> v) / (count v - 1)).

(** [s.std()] *)
Definition std (sqrt : Qc → Qc) (s : t) : float64 := sqrt <$> var s.

(** Rows on which both columns are present (pairwise complete cases). *)
Definition paired (sx sy : t) : list (Qc * Qc) :=
  omap (λ p : float64 * float64, x ← p.1; y ← p.2; Some (x, y)) (zip sx sy).

(** Pearson's r as [DataFrame.corr()] computes it for one pair of
    columns, with its default [min_periods=1]: NaN when no pair is
    left or when the divisor vanishes. *)
Definition corr (sqrt : Qc → Qc) (sx sy : t) : float64 :=
  let ps := paired sx sy in
  if (length ps <? 1)%nat then NaN
  else
    let meanx := total ps.*1 / count ps.*1 in
    let meany := total ps.*2 / count ps.*2 in
    let ssqdm_x := total ((λ p, (p.1 - meanx) * (p.1 - meanx)) <$> ps) in
    let ssqdm_y := total ((λ p, (p.2 - meany) * (p.2 - meany)) <$> ps) in
    let covxy := total ((λ p, (p.1 - meanx) * (p.2 - meany)) <$> ps) in
    let divisor := sqrt (ssqdm_x * ssqdm_y) in
    if decide (divisor = 0) then NaN else Some (covxy / divisor).
End Series.

(** ** Reductions in double precision

    A cell is the double nearest to its decimal value, and the sum of a
    column adds its non-missing values in row order, starting from 0:
    the order in which NumPy adds a column of fewer than eight rows. *)

Module Float64.

(** The double nearest to an integer below [2^63] in magnitude. *)
Definition of_Z (z : Z) : float :=
  match z with
  | Z0 => PrimFloat.zero
  | Zpos _ => PrimFloat.of_uint63 (Uint63.of_Z z)
  | Zneg p => PrimFloat.opp (PrimFloat.of_uint63 (Uint63.of_Z (Zpos p)))
  end.

(** The double nearest to [q]: one correctly rounded division, for a
    numerator and a denominator below [2^53]. *)
Definition of_Qc (q : Qc) : float :=
  PrimFloat.div (of_Z (Qnum q)) (of_Z (Zpos (Qden q))).

(** [values.sum()] *)
Definition sum (v : list float) : float := foldl PrimFloat.add PrimFloat.zero v.

(** [s.mean()]: the sum of the non-missing values over their number
    (pandas adds a missing value as 0.0, which leaves the sum as it is). *)
Definition mean (s : Series.t) : option float :=
  let v := of_Qc <$> Series.valid s in
  if v is [] then None
  else Some (PrimFloat.div (sum v) (of_Z (Z.of_nat (length v)))).

End Float64.

(** ** The dataset

    One row per census tract.  A tract's indicator values are a finite
    map from column name to number; a column the map has no entry for
    holds NaN in that row.  [columns] lists the indicator columns of the
    table; the identifier column [tract], which every table has, is kept
    apart as the numeric tract code of each row. *)

Record Tract : Type := { tract : N; vals : gmap string Qc }.

Record DataFrame : Type := { columns : list string; rows : list Tract }.

Module DF.

(** [len(df)] *)
Definition len (df : DataFrame) : nat := length (rows df).

(** The values of column [key], row by row. *)
Definition column (df : DataFrame) (key : string) : Series.t :=
  (λ r, vals r !! key) <$> rows df.

(** [df[key]] *)
Definition getitem (df : DataFrame) (key : string) : result Series.t :=
  if decide (key ∈ columns df) then Ok (column df key) else Raise (KeyError key).

(** [tract_data[key]] for a row [tract_data] of [df]: the row's index is
    the column list of [df]. *)
Definition row_getitem (df : DataFrame) (tract_data : Tract) (key : string)
  : result float64 :=
  if decide (key ∈ columns df) then Ok (vals tract_data !! key)
  else Raise (KeyError key).

(** The frame with one more row at the end. *)
Definition append (df : DataFrame) (r : Tract) : DataFrame :=
  {| columns := columns df; rows := rows df ++ [r] |}.

(** [df[[x, y]].corr().iloc[0, 1]] *)
Definition corr (sqrt : Qc → Qc) (df : DataFrame) (x y : string) : result float64 :=
  sx ← getitem df x; sy ← getitem df y; Ok (Series.corr sqrt sx sy).

End DF.

(** ** Strings *)

Module Str.

Definition is_lower (c : Ascii.ascii) : bool :=
  let n := Ascii.nat_of_ascii c in (97 <=? n)%nat && (n <=? 122)%nat.
Definition is_upper (c : Ascii.ascii) : bool :=
  let n := Ascii.nat_of_ascii c in (65 <=? n)%nat && (n <=? 90)%nat.
Definition upper (c : Ascii.ascii) : Ascii.ascii :=
  if is_lower c then Ascii.ascii_of_nat (Ascii.nat_of_ascii c - 32) else c.
Definition lower (c : Ascii.ascii) : Ascii.ascii :=
  if is_upper c then Ascii.ascii_of_nat (Ascii.nat_of_ascii c + 32) else c.

(** [s.replace(old, new)] for single characters. *)
Fixpoint replace (old new : Ascii.ascii) (s : string) : string :=
  match s with
  | EmptyString => EmptyString
  | String c s' =>
      String (if decide (c = old) then new else c) (replace old new s')
  end.

(** [s.title()]: a letter that follows a letter is lowered, any other
    letter is raised. *)
Fixpoint title_from (prev_cased : bool) (s : string) : string :=
  match s with
  | EmptyString => EmptyString
  | String c s' =>
      let cased := is_lower c || is_upper c in
      String (if prev_cased then lower c else upper c) (title_from cased s')
  end.
Definition title (s : string) : string := title_from false s.

Definition is_sign (c : Ascii.ascii) : bool :=
  bool_decide (c = "+"%char) || bool_decide (c = "-"%char).

(** [s.zfill(width)]: zeros on the left up to [width] characters, after
    a leading sign if there is one ([Series.str.zfill] applies Python's
    [str.zfill] to every element). *)
Definition zfill (width : nat) (s : string) : string :=
  let fill := String.concat "" (replicate (width - String.length s) "0") in
  match s with
  | String c rest => if is_sign c then String c (fill +:+ rest) else fill +:+ s
  | EmptyString => fill
  end.

End Str.

(** ** The dashboard ([Baltimore_Dashboard_Updated.py]) *)

Module Dashboard.
Local Open Scope Qc_scope.

(** *** Loading the data *)

(** What a path of the file system holds: a well-formed table (a header
    and any number of rows, possibly none) or bytes that do not parse. *)
Inductive File : Type :=
  | Table (df : DataFrame)
  | Malformed.

(** [pd.read_csv(path)] *)
Definition read_csv (fs : gmap string File) (path : string) : result DataFrame :=
  match fs !! path with
  | None => Raise (FileNotFoundError path)
  | Some Malformed => Raise (ParserError path)
  | Some (Table df) => Ok df
  end.

Definition data_path : string :=
  "data/integrated/baltimore_integrated_expanded_2022.csv".

Definition data_not_found : string :=
  "Data file not found. Please ensure baltimore_integrated_expanded_2022.csv is in data/integrated/".

(** [load_data()]: the messages passed to [st.error], and the frame or
    Python's [None]. *)
Definition load_data (fs : gmap string File) : list string * option DataFrame :=
  match read_csv fs data_path with
  | Ok df => ([], Some df)
  | Raise _ => ([data_not_found], None)
  end.

(** *** City overview *)

Record CityOverview : Type := {
  census_tracts : nat;
  avg_poverty : float64;
  avg_unemployment : float64;
  median_income : float64;
  stat_min : float64;
  stat_median : float64;
  stat_max : float64;
  stat_std : float64
}.

(** The "Statistics" block: [values = df[indicator].dropna()] and its
    four reductions. *)
Definition statistics (sqrt : Qc → Qc) (df : DataFrame) (indicator : string)
  : result (float64 * float64 * float64 * float64) :=
  values ← Series.dropna <$> DF.getitem df indicator;
  Ok (Series.min values, Series.median values, Series.max values,
      Series.std sqrt values).

(** The city-wide figures of one indicator: the statistics block
    together with the mean the metric cards and comparisons use. *)
Definition aggregate (sqrt : Qc → Qc) (df : DataFrame) (indicator : string)
  : result (float64 * float64 * float64 * float64 * float64) :=
  '(mn, med, mx, sd) ← statistics sqrt df indicator;
  m ← Series.mean <$> DF.getitem df indicator;
  Ok (mn, med, mx, sd, m).

Definition show_city_overview (sqrt : Qc → Qc) (df : DataFrame) (indicator : string)
  : result CityOverview :=
  avg_poverty ← Series.mean <$> DF.getitem df "poverty_rate";
  avg_unemployment ← Series.mean <$> DF.getitem df "unemployment_rate";
  median_income ← Series.median <$> DF.getitem df "median_household_income_econ";
  '(mn, med, mx, sd) ← statistics sqrt df indicator;
  Ok {| census_tracts := DF.len df;
        avg_poverty := avg_poverty;
        avg_unemployment := avg_unemployment;
        median_income := median_income;
        stat_min := mn; stat_median := med; stat_max := mx; stat_std := sd |}.

(** *** Neighborhood explorer *)

Definition tract_str (r : Tract) : string := Str.zfill 6 (pretty (tract r)).
Definition tract_display (r : Tract) : string := "Tract " +:+ tract_str r.

(** [df[df['tract_display'] == selected_tract].iloc[0]] *)
Definition select_tract (df : DataFrame) (selected_tract : string) : result Tract :=
  match filter (λ r, tract_display r = selected_tract) (rows df) with
  | [] => Raise IndexError
  | r :: _ => Ok r
  end.

(** The four key indicators: the tract's value and its delta to the city
    figure. *)
Definition col1_poverty (df : DataFrame) (tract_data : Tract)
  : result (float64 * float64) :=
  poverty ← DF.row_getitem df tract_data "poverty_rate";
  city_avg ← Series.mean <$> DF.getitem df "poverty_rate";
  let delta := F.sub poverty city_avg in
  Ok (poverty, delta).

Definition col2_unemployment (df : DataFrame) (tract_data : Tract)
  : result (float64 * float64) :=
  unemployment ← DF.row_getitem df tract_data "unemployment_rate";
  city_avg ← Series.mean <$> DF.getitem df "unemployment_rate";
  let delta := F.sub unemployment city_avg in
  Ok (unemployment, delta).

Definition col3_income (df : DataFrame) (tract_data : Tract)
  : result (float64 * float64) :=
  income ← DF.row_getitem df tract_data "median_household_income_econ";
  city_avg ← Series.median <$> DF.getitem df "median_household_income_econ";
  let delta := F.sub income city_avg in
  Ok (income, delta).

Definition col4_gini (df : DataFrame) (tract_data : Tract)
  : result (float64 * float64) :=
  gini ← DF.row_getitem df tract_data "gini_index";
  city_avg ← Series.mean <$> DF.getitem df "gini_index";
  let delta := F.sub gini city_avg in
  Ok (gini, delta).

(** The key indicator card of [key], for the four keys that have one. *)
Definition key_indicator (df : DataFrame) (tract_data : Tract) (key : string)
  : option (result (float64 * float64)) :=
  if decide (key = "poverty_rate") then Some (col1_poverty df tract_data)
  else if decide (key = "unemployment_rate") then Some (col2_unemployment df tract_data)
  else if decide (key = "median_household_income_econ") then Some (col3_income df tract_data)
  else if decide (key = "gini_index") then Some (col4_gini df tract_data)
  else None.

(** [((value - city_avg) / city_avg * 100) if city_avg != 0 else 0] *)
Definition diff_pct (value city_avg : float64) : result float64 :=
  if F.ne city_avg (Some 0) then
    q ← F.div (F.sub value city_avg) city_avg; Ok (F.mul q (Some (qz 100)))
  else Ok (Some 0).

(** [(tract_val / city_val * 100) if city_val != 0 else 100] *)
Definition normalized (tract_val city_val : float64) : result float64 :=
  if F.ne city_val (Some 0) then
    q ← F.div tract_val city_val; Ok (F.mul q (Some (qz 100)))
  else Ok (Some (qz 100)).

(** [min(value / 100, 1.0) if unit == '%' else 0.5] *)
Definition progress (value : float64) (unit : string) : result float64 :=
  if decide (unit = "%") then
    q ← F.div value (Some (qz 100)); Ok (F.min q (Some 1))
  else Ok (Some (Q2Qc 0.5)).

(** [math.isclose(a, b, rel_tol=1e-9, abs_tol=1e-9)] *)
Definition isclose (a b : Qc) : bool :=
  let tol := Q2Qc (1 # 1000000000) in
  bool_decide (F.Qc_abs (a - b)
               ≤ Series.Qc_max (tol * Series.Qc_max (F.Qc_abs a) (F.Qc_abs b)) tol).

(** The range check [st.progress] makes on a float: Streamlit takes a
    value between 0.0 and 1.0, or one that is close to either end, and
    raises on any other, NaN included. *)
Definition check_float_between (value : float64) : bool :=
  match value with
  | Some p =>
      bool_decide (0 ≤ p) && bool_decide (p ≤ 1) || isclose p 0 || isclose p 1
  | None => false
  end.

(** [st.progress(value)] *)
Definition st_progress (value : float64) : result unit :=
  if check_float_between value then Ok () else Raise StreamlitAPIException.

Record MetricLine : Type := {
  line_label : string;
  line_value : float64;
  line_unit : string;
  line_progress : float64;
  line_diff_pct : float64
}.

Definition housing_economic_metrics : list (string * string * string) :=
  [ ("housing_cost_burden_rate", "Housing Cost Burden", "%");
    ("snap_participation_rate", "SNAP Participation", "%");
    ("public_assistance_rate", "Public Assistance", "%");
    ("home_ownership_rate", "Home Ownership", "%");
    ("vacancy_rate", "Vacancy Rate", "%") ].

Definition health_education_metrics : list (string * string * string) :=
  [ ("uninsured_rate", "Uninsured Rate", "%");
    ("disability_rate", "Disability Rate", "%");
    ("college_degree_rate", "College Degree Rate", "%");
    ("long_commute_rate", "Long Commute Rate (60+ min)", "%") ].

(** [key in tract_data.index and pd.notna(tract_data[key])]; the second
    operand is only looked at when the column exists. *)
Definition has_value (df : DataFrame) (tract_data : Tract) (key : string) : bool :=
  bool_decide (key ∈ columns df) && F.notna (vals tract_data !! key).

(** [for key, label, unit in metrics: ...]: one line per metric the
    tract has a value for, unless [st.progress] stops the loop. *)
Fixpoint show_metrics (df : DataFrame) (tract_data : Tract)
    (metrics : list (string * string * string)) : result (list MetricLine) :=
  match metrics with
  | [] => Ok []
  | (key, label, unit) :: rest =>
      if has_value df tract_data key then
        value ← DF.row_getitem df tract_data key;
        city_avg ← Series.mean <$> DF.getitem df key;
        d ← diff_pct value city_avg;
        p ← progress value unit;
        _ ← st_progress p;
        lines ← show_metrics df tract_data rest;
        Ok ({| line_label := label; line_value := value; line_unit := unit;
               line_progress := p; line_diff_pct := d |} :: lines)
      else show_metrics df tract_data rest
  end.

(** The indicators the tract has a value for, in the order given. *)
Definition kept_indicators (df : DataFrame) (tract_data : Tract)
    (inds : list string) : list string :=
  filter (λ ind, has_value df tract_data ind) inds.

Definition comparison_indicators : list string :=
  [ "poverty_rate"; "unemployment_rate"; "snap_participation_rate";
    "housing_cost_burden_rate"; "uninsured_rate"; "college_degree_rate" ].

(** [ind.replace('_', ' ').title()] *)
Definition radar_label (ind : string) : string :=
  Str.title (Str.replace "_"%char " "%char ind).

Record Radar : Type := {
  tract_values : list float64;
  city_values : list Qc;
  labels : list string
}.

(** [for ind in comparison_indicators: ...], appending to the three
    lists. *)
Fixpoint radar_loop (df : DataFrame) (tract_data : Tract) (inds : list string)
    (acc : Radar) : result Radar :=
  match inds with
  | [] => Ok acc
  | ind :: rest =>
      if has_value df tract_data ind then
        tract_val ← DF.row_getitem df tract_data ind;
        city_val ← Series.mean <$> DF.getitem df ind;
        n ← normalized tract_val city_val;
        radar_loop df tract_data rest
          {| tract_values := tract_values acc ++ [n];
             city_values := city_values acc ++ [qz 100];
             labels := labels acc ++ [radar_label ind] |}
      else radar_loop df tract_data rest acc
  end.

Definition radar (df : DataFrame) (tract_data : Tract) (inds : list string)
  : result Radar :=
  radar_loop df tract_data inds
    {| tract_values := []; city_values := []; labels := [] |}.

Record Neighborhood : Type := {
  poverty_metric : float64 * float64;
  unemployment_metric : float64 * float64;
  income_metric : float64 * float64;
  gini_metric : float64 * float64;
  housing_economic : list MetricLine;
  health_education : list MetricLine;
  radar_chart : Radar
}.

Definition show_neighborhood_explorer (df : DataFrame) (selected_tract : string)
  : result Neighborhood :=
  tract_data ← select_tract df selected_tract;
  c1 ← col1_poverty df tract_data;
  c2 ← col2_unemployment df tract_data;
  c3 ← col3_income df tract_data;
  c4 ← col4_gini df tract_data;
  he ← show_metrics df tract_data housing_economic_metrics;
  hd ← show_metrics df tract_data health_education_metrics;
  rc ← radar df tract_data comparison_indicators;
  Ok {| poverty_metric := c1; unemployment_metric := c2;
        income_metric := c3; gini_metric := c4;
        housing_economic := he; health_education := hd;
        radar_chart := rc |}.

(** *** Indicator analysis *)

Inductive Strength : Type := Strong | Moderate | Weak.

(** The [if abs(corr) > 0.7: ... elif abs(corr) > 0.4: ... else: ...]
    cascade. *)
Definition strength (corr : float64) : Strength :=
  if F.gt (F.abs corr) (Some (Q2Qc 0.7)) then Strong
  else if F.gt (F.abs corr) (Some (Q2Qc 0.4)) then Moderate
  else Weak.

(** The column check of [px.scatter(df, x=x_var, y=y_var, ...)]: Plotly
    raises [ValueError] for an argument that does not name a column, [x]
    before [y]. *)
Definition px_scatter (df : DataFrame) (x_var y_var : string) : result unit :=
  if decide (x_var ∈ columns df) then
    if decide (y_var ∈ columns df) then Ok () else Raise (ValueError y_var)
  else Raise (ValueError x_var).

Definition show_indicator_analysis (sqrt : Qc → Qc) (df : DataFrame)
    (x_var y_var : string) : result (float64 * Strength) :=
  _ ← px_scatter df x_var y_var;
  corr ← DF.corr sqrt df x_var y_var;
  Ok (corr, strength corr).

(** *** The page *)

Inductive View : Type :=
  | CityOverviewView (indicator : string)
  | NeighborhoodExplorerView (selected_tract : string)
  | IndicatorAnalysisView (x_var y_var : string)
  | AboutView.

Inductive Page : Type :=
  | CityOverviewPage (p : CityOverview)
  | NeighborhoodPage (p : Neighborhood)
  | IndicatorPage (corr : float64) (s : Strength)
  | AboutPage.

(** [main()]: the error messages shown, and the page rendered unless the
    data could not be loaded. *)
Definition main (sqrt : Qc → Qc) (fs : gmap string File) (view_mode : View)
  : result (list string * option Page) :=
  let '(errors, df) := load_data fs in
  match df with
  | None => Ok (errors, None)
  | Some df =>
      page ← match view_mode with
             | CityOverviewView indicator =>
                 CityOverviewPage <$> show_city_overview sqrt df indicator
             | NeighborhoodExplorerView selected_tract =>
                 NeighborhoodPage <$> show_neighborhood_explorer df selected_tract
             | IndicatorAnalysisView x_var y_var =>
                 (λ r, IndicatorPage r.1 r.2) <$> show_indicator_analysis sqrt df x_var y_var
             | AboutView => Ok AboutPage
             end;
      Ok (errors, Some page)
  end.

End Dashboard.

(** ** The pipeline driver ([full_pipeline.py])

    The driver is sequential code over an environment it does not
    control: child processes, the file system and the optional pandas
    import.  The environment is a parameter: a type of worlds, what
    [subprocess.run] does to a world, and what the file checks see in
    it.  The driver's own state is the world together with the trace of
    what it attempted.  [print] calls are left out. *)

Module Pipeline.

(** How a [subprocess.run(..., timeout=...)] call ends. *)
Inductive Outcome : Type :=
  | Completed (returncode : Z) (stdout stderr : string)
  | TimeoutExpired
  | OtherException (message : string).

Inductive Event : Type :=
  | Ran (script : string) (outcome : Outcome)
  | Validated (checks_passed checks_total : nat).

Record Args : Type := { skip_download : bool; validate_only : bool }.

(** The per-step timeout, in seconds. *)
Definition timeout : nat := 300.

(** [result.returncode == 0] inside the [try]; both [except] clauses
    return [False]. *)
Definition succeeded (o : Outcome) : bool :=
  match o with
  | Completed returncode _ _ => bool_decide (returncode = 0%Z)
  | TimeoutExpired => false
  | OtherException _ => false
  end.

(** A trace in which a failed step, if there is one, is the last event. *)
Definition halts (new : list Event) : Prop :=
  ∀ i script o, new !! i = Some (Ran script o) → succeeded o = false →
    length new = S i.

Definition all_succeeded (new : list Event) : Prop :=
  ∀ script o, Ran script o ∈ new → succeeded o = true.

Section driver.
Context {World : Type}.
(** [subprocess.run([sys.executable, script], ..., timeout=t)] *)
Context (subprocess_run : World → string → nat → Outcome * World).
(** [os.path.exists(path)] *)
Context (path_exists : World → string → bool).
(** [len(pd.read_csv(path))] after [import pandas]; [None] when any of
    the three raises. *)
Context (read_csv_len : World → string → option nat).

Record State : Type := { world : World; trace : list Event }.

Definition M (A : Type) : Type := State → A * State.

Definition ret {A} (a : A) : M A := λ s, (a, s).
Definition bind {A B} (m : M A) (f : A → M B) : M B := λ s,
  let '(a, s') := m s in f a s'.

#[local] Notation "'let*' x ':=' m 'in' k" := (bind m (λ x, k))
  (at level 10, x name, m at level 100, k at level 200, only parsing).

(** What a step that reports its success as a boolean adds to the trace
    of [s]: a halting trace, all of whose steps succeeded when the step
    reports success. *)
Definition step_ok (r : bool * State) (s : State) : Prop :=
  ∃ new, trace r.2 = trace s ++ new ∧ halts new ∧ (r.1 = true → all_succeeded new).

Definition emit (e : Event) : M unit := λ s,
  ((), {| world := world s; trace := trace s ++ [e] |}).

Definition exists_ (path : string) : M bool := λ s,
  (path_exists (world s) path, s).

(** [run_script(script_name, description)] *)
Definition run_script (script_name description : string) : M bool := λ s,
  let '(o, w) := subprocess_run (world s) script_name timeout in
  (succeeded o, {| world := w; trace := trace s ++ [Ran script_name o] |}).

Definition required_scripts : list string :=
  [ "expand_health_indicators.py"; "fetch_census_economic_data.py";
    "integrate_economic_data.py"; "Baltimore_MetricsWithMap.py" ].

(** [for script in required_scripts: ...], threading [all_good]. *)
Fixpoint check_scripts (scripts : list string) (all_good : bool) : M bool :=
  match scripts with
  | [] => ret all_good
  | script :: rest =>
      let* found := exists_ script in
      check_scripts rest (if found then all_good else false)
  end.

(** [check_prerequisites()] *)
Definition check_prerequisites : M bool :=
  let* env := exists_ ".env" in
  let all_good := if negb env then false else true in
  check_scripts required_scripts all_good.

Definition extraction_steps : list (string * string) :=
  [ ("expand_health_indicators.py", "Expanding health indicators (4 -> 35)");
    ("fetch_census_economic_data.py", "Fetching economic indicators (24 metrics)") ].

(** [for script, description in steps: if not run_script(...): return
    False] and [return True] after the loop. *)
Fixpoint run_steps (steps : list (string * string)) : M bool :=
  match steps with
  | [] => ret true
  | (script, description) :: rest =>
      let* ok := run_script script description in
      if negb ok then ret false else run_steps rest
  end.

(** [run_data_extraction()] *)
Definition run_data_extraction : M bool := run_steps extraction_steps.

(** [run_data_integration()] *)
Definition run_data_integration : M bool :=
  run_script "integrate_economic_data.py" "Integrating health + economic data".

(** [run_dashboard_generation()] *)
Definition run_dashboard_generation : M bool :=
  run_script "Baltimore_MetricsWithMap.py" "Generating health dashboard".

Definition health_file : string :=
  "data/health_expanded/baltimore_health_35indicators_2022.csv".
Definition econ_file : string :=
  "data/economic/baltimore_economic_data_2022.csv".
Definition integrated_file : string :=
  "data/integrated/baltimore_integrated_health_economic_2022.csv".
Definition dashboard_file : string :=
  "output/dashboard_multi_year.html".

(** One existence check: [checks_total += 1], and [checks_passed += 1]
    when the file is there. *)
Definition check_file (path : string) (counters : nat * nat) : M (nat * nat) :=
  let '(checks_passed, checks_total) := counters in
  let checks_total := checks_total + 1 in
  let* found := exists_ path in
  ret (if found then checks_passed + 1 else checks_passed, checks_total).

(** Check 5: the integrated table has 199 rows, when it can be read. *)
Definition check_completeness (counters : nat * nat) : M (nat * nat) := λ s,
  let '(checks_passed, checks_total) := counters in
  let checks_total := checks_total + 1 in
  (match read_csv_len (world s) integrated_file with
   | Some n => if (n =? 199)%nat then checks_passed + 1 else checks_passed
   | None => checks_passed
   end, checks_total, s).

(** [run_validation()] *)
Definition run_validation : M bool :=
  let* c := check_file health_file (0, 0) in
  let* c := check_file econ_file c in
  let* c := check_file integrated_file c in
  let* c := check_file dashboard_file c in
  let* c := check_completeness c in
  let* _ := emit (Validated c.1 c.2) in
  ret (c.1 =? c.2)%nat.

(** [main()], up to its return value, the process exit status. *)
Definition main (args : Args) : M Z :=
  let success := true in
  let* _ := check_prerequisites in
  let* success :=
    (if validate_only args then run_validation
     else
       let* success :=
         (if negb (skip_download args) then
            let* ok := run_data_extraction in
            ret (if negb ok then false else success)
          else ret success) in
       let* success :=
         (if success then
            let* ok := run_data_integration in
            ret (if negb ok then false else success)
          else ret success) in
       let* success :=
         (if success then
            let* ok := run_dashboard_generation in
            ret (if negb ok then false else success)
          else ret success) in
       let* _ := (if success then let* _ := run_validation in ret () else ret ()) in
       ret success) in
  ret (if success then 0%Z else 1%Z).

End driver.

End Pipeline.

(** ** Specification-level notions and example inputs *)

(** The city aggregate the comparison is claimed to use: the median for
    the income indicator, the mean for every other one. *)
Definition city_aggregate (df : DataFrame) (key : string) : float64 :=
  if decide (key = "median_household_income_econ")
  then Series.median (DF.column df key)
  else Series.mean (DF.column df key).

(** A square root to run the model with: exact on the squares of
    rationals, rounded down on numerator and denominator elsewhere. *)
Definition Qc_sqrt (q : Qc) : Qc := Q2Qc (Z.sqrt (Qnum q) # Pos.sqrt (Qden q)).

(** Three tracts with poverty rates 10, 20 and 30. *)
Definition tract_of (code : N) (cells : list (string * Z)) : Tract :=
  {| tract := code; vals := list_to_map (prod_map id qz <$> cells) |}.

Definition tract10 : Tract := tract_of 10100 [("poverty_rate", 10%Z)].
Definition tract20 : Tract := tract_of 10200 [("poverty_rate", 20%Z)].
Definition tract30 : Tract := tract_of 10300 [("poverty_rate", 30%Z)].

Definition three_tracts : DataFrame :=
  {| columns := ["poverty_rate"]; rows := [tract10; tract20; tract30] |}.

(** The same rows in another order, and a tract without a poverty rate. *)
Definition three_tracts_permuted : DataFrame :=
  {| columns := ["poverty_rate"]; rows := [tract30; tract10; tract20] |}.

Definition tract_missing : Tract := tract_of 10400 [].

(** The order statistics of the statistics block: min, median and max. *)
Definition order_statistics (figures : float64 * float64 * float64 * float64)
  : float64 * float64 * float64 :=
  let '(mn, med, mx, _) := figures in (mn, med, mx).

(** [df[indicator].mean()], the mean among the city-wide figures, in
    double precision. *)
Definition mean_float64 (df : DataFrame) (indicator : string)
  : result (option float) :=
  Float64.mean <$> DF.getitem df indicator.

(** Three tracts with poverty rates 0.1, 0.2 and 0.3, and the same rows
    from the last to the first. *)
Definition tract_tenths (code : N) (tenths : Z) : Tract :=
  {| tract := code; vals := {[ "poverty_rate" := Q2Qc (tenths # 10) ]} |}.

Definition tenths_tracts : DataFrame :=
  {| columns := ["poverty_rate"];
     rows := [tract_tenths 10100 1; tract_tenths 10200 2; tract_tenths 10300 3] |}.

Definition tenths_tracts_reversed : DataFrame :=
  {| columns := ["poverty_rate"];
     rows := [tract_tenths 10300 3; tract_tenths 10200 2; tract_tenths 10100 1] |}.

(** Three tracts with the values [2^53], 1 and [-2^53], and the same
    rows with the two large values first. *)
Definition cancelling_tracts : DataFrame :=
  {| columns := ["poverty_rate"];
     rows := [ tract_of 10100 [("poverty_rate", 9007199254740992%Z)];
               tract_of 10200 [("poverty_rate", 1%Z)];
               tract_of 10300 [("poverty_rate", (-9007199254740992)%Z)] ] |}.

Definition cancelling_tracts_permuted : DataFrame :=
  {| columns := ["poverty_rate"];
     rows := [ tract_of 10100 [("poverty_rate", 9007199254740992%Z)];
               tract_of 10300 [("poverty_rate", (-9007199254740992)%Z)];
               tract_of 10200 [("poverty_rate", 1%Z)] ] |}.

(** A city whose mean uninsured rate is zero. *)
Definition zero_city : DataFrame :=
  {| columns := ["uninsured_rate"];
     rows := [ tract_of 1 [("uninsured_rate", 4%Z)];
               tract_of 2 [("uninsured_rate", (-4)%Z)] ] |}.

(** Incomes 1, 2 and 9 (median 2, mean 4), with the other key indicators. *)
Definition key_row (code : N) (income : Z) : Tract :=
  tract_of code [ ("poverty_rate", 10%Z); ("unemployment_rate", 5%Z);
                  ("median_household_income_econ", income); ("gini_index", 1%Z) ].

Definition skewed_incomes : DataFrame :=
  {| columns := [ "poverty_rate"; "unemployment_rate";
                  "median_household_income_econ"; "gini_index" ];
     rows := [key_row 1 1; key_row 2 2; key_row 3 9] |}.

(** One tract only: a single paired observation. *)
Definition one_tract : DataFrame :=
  {| columns := ["poverty_rate"; "uninsured_rate"];
     rows := [tract_of 10100 [("poverty_rate", 10%Z); ("uninsured_rate", 7%Z)]] |}.

(** A header without rows, as the content of the data file. *)
Definition header_only : DataFrame :=
  {| columns := ["poverty_rate"; "unemployment_rate"]; rows := [] |}.

Definition header_only_fs : gmap string Dashboard.File :=
  {[ Dashboard.data_path := Dashboard.Table header_only ]}.

(** A world in which every script exits with status 0 and every output
    file exists, but the integrated table has 198 rows. *)
Definition all_steps_pass (w : unit) (script : string) (t : nat)
  : Pipeline.Outcome * unit :=
  (Pipeline.Completed 0 "" "", w).
Definition every_file_exists (w : unit) (path : string) : bool := true.
Definition short_table (w : unit) (path : string) : option nat := Some 198.

Definition full_run : Pipeline.Args :=
  {| Pipeline.skip_download := false; Pipeline.validate_only := false |}.
Definition validation_run : Pipeline.Args :=
  {| Pipeline.skip_download := false; Pipeline.validate_only := true |}.

(** ** Notions used to state further properties *)

(** The metrics the tract has a value for, in the order given. *)
Definition kept_metrics (df : DataFrame) (tract_data : Tract)
    (metrics : list (string * string * string)) : list (string * string * string) :=
  filter (λ m, Dashboard.has_value df tract_data m.1.1) metrics.

(** The characters of a string. *)
Fixpoint chars (s : string) : list Ascii.ascii :=
  match s with
  | EmptyString => []
  | String c s' => c :: chars s'
  end.

(** The events of running the scripts of [l] with the outcomes of [l]. *)
Definition ran (l : list (string * Pipeline.Outcome)) : list Pipeline.Event :=
  (λ p, Pipeline.Ran p.1 p.2) <$> l.

(** The scripts a trace ran, in order, and the validations it reported. *)
Definition scripts_run (new : list Pipeline.Event) : list string :=
  omap (λ e, match e with
             | Pipeline.Ran script _ => Some script
             | Pipeline.Validated _ _ => None
             end) new.

Definition validations (new : list Pipeline.Event) : list (nat * nat) :=
  omap (λ e, match e with
             | Pipeline.Ran _ _ => None
             | Pipeline.Validated passed total => Some (passed, total)
             end) new.

(** The scripts a run goes through when none of them fails. *)
Definition planned_scripts (args : Pipeline.Args) : list string :=
  if Pipeline.validate_only args then []
  else (if Pipeline.skip_download args then [] else Pipeline.extraction_steps.*1)
         ++ ["integrate_economic_data.py"; "Baltimore_MetricsWithMap.py"].

(** A stage that went through the scripts of [plan] with outcomes [l] and
    reported [b]: either it ran the whole plan and every script
    succeeded, or it stopped at the first script that did not. *)
Definition stage (plan : list string) (b : bool) (l : list (string * Pipeline.Outcome))
  : Prop :=
  l.*1 `prefix_of` plan ∧
  if b then l.*1 = plan ∧ Forall (λ p, Pipeline.succeeded p.2 = true) l
  else ∃ l0 p, l = l0 ++ [p] ∧ Forall (λ p, Pipeline.succeeded p.2 = true) l0 ∧
               Pipeline.succeeded p.2 = false.

(** What the metrics loop shows for one kept metric [m]. *)
Definition shows (df : DataFrame) (td : Tract) (m : string * string * string)
    (line : Dashboard.MetricLine) : Prop :=
  Dashboard.line_label line = m.1.2 ∧
  Dashboard.line_unit line = m.2 ∧
  Dashboard.line_value line = vals td !! m.1.1 ∧
  Dashboard.diff_pct (Dashboard.line_value line) (Series.mean (DF.column df m.1.1))
    = Ok (Dashboard.line_diff_pct line) ∧
  Dashboard.progress (Dashboard.line_value line) m.2 = Ok (Dashboard.line_progress line) ∧
  Dashboard.st_progress (Dashboard.line_progress line) = Ok ().

(** A percentage below zero, which [st.progress] may refuse. *)
Definition negative_percentage (td : Tract) (m : string * string * string) : Prop :=
  m.2 = "%" ∧ ∃ v : Qc, vals td !! m.1.1 = Some v ∧ (v < 0)%Qc.

(** The columns the four key indicator cards read. *)
Definition key_indicator_keys : list string :=
  [ "poverty_rate"; "unemployment_rate"; "median_household_income_econ"; "gini_index" ].

(** * Properties *)

(** Equality of concrete results, component by component; numbers are
    compared through their canonical fractions. *)
Ltac qc_eq :=
  lazymatch goal with
  | |- @eq Qc _ _ => apply Qc_is_canon; vm_compute; reflexivity
  | |- _ => first [ reflexivity | f_equal; qc_eq ]
  end.

Section frames.
Implicit Types (df : DataFrame) (td : Tract) (key : string).

Lemma getitem_column df key :
  key ∈ columns df → DF.getitem df key = Ok (DF.column df key).
Proof. intros Hk. unfold DF.getitem. by rewrite decide_True. Qed.

Lemma row_getitem_column df td key :
  key ∈ columns df → DF.row_getitem df td key = Ok (vals td !! key).
Proof. intros Hk. unfold DF.row_getitem. by rewrite decide_True. Qed.

End frames.

(** ** Reductions depend on the non-missing values only *)

Section reductions.
Local Open Scope Qc_scope.
Implicit Types (v w : list Qc) (s : Series.t).

Lemma valid_dropna s : Series.valid (Series.dropna s) = Series.valid s.
Proof.
  unfold Series.valid, Series.dropna.
  induction s as [|[x|] s IH]; [done| |].
  - rewrite filter_cons_True by eauto. cbn [omap list_omap id]. by rewrite IH.
  - rewrite filter_cons_False; [done|]. by intros [? ?].
Qed.

(** The running minimum is a least element of what it ran over. *)
Lemma foldl_min_least x v :
  let m := foldl Series.Qc_min x v in
  m ∈ x :: v ∧ ∀ y, y ∈ x :: v → m ≤ y.
Proof.
  revert x. induction v as [|z v IH]; intros x; simpl.
  - split; [left|]. intros y ->%list_elem_of_singleton. done.
  - destruct (IH (Series.Qc_min x z)) as [Hin Hle]. split.
    + apply elem_of_cons in Hin as [->|Hin].
      * unfold Series.Qc_min. case_decide; [left|right; left].
      * by do 2 right.
    + intros y Hy.
      assert (Series.Qc_min x z ≤ x ∧ Series.Qc_min x z ≤ z) as [Hx Hz].
      { unfold Series.Qc_min. case_decide as Hd; split; try done.
        by apply Qclt_le_weak, Qcnot_le_lt. }
      pose proof (Hle (Series.Qc_min x z) ltac:(left)) as Hm.
      apply elem_of_cons in Hy as [->|[->|Hy]%elem_of_cons].
      * by trans (Series.Qc_min x z).
      * by trans (Series.Qc_min x z).
      * apply Hle. by right.
Qed.

Lemma foldl_max_greatest x v :
  let m := foldl Series.Qc_max x v in
  m ∈ x :: v ∧ ∀ y, y ∈ x :: v → y ≤ m.
Proof.
  revert x. induction v as [|z v IH]; intros x; simpl.
  - split; [left|]. intros y ->%list_elem_of_singleton. done.
  - destruct (IH (Series.Qc_max x z)) as [Hin Hle]. split.
    + apply elem_of_cons in Hin as [->|Hin].
      * unfold Series.Qc_max. case_decide; [right; left|left].
      * by do 2 right.
    + intros y Hy.
      assert (x ≤ Series.Qc_max x z ∧ z ≤ Series.Qc_max x z) as [Hx Hz].
      { unfold Series.Qc_max. case_decide as Hd; split; try done.
        by apply Qclt_le_weak, Qcnot_le_lt. }
      pose proof (Hle (Series.Qc_max x z) ltac:(left)) as Hm.
      apply elem_of_cons in Hy as [->|[->|Hy]%elem_of_cons].
      * by trans (Series.Qc_max x z).
      * by trans (Series.Qc_max x z).
      * apply Hle. by right.
Qed.

Lemma min_Permutation s s' :
  Series.valid s ≡ₚ Series.valid s' → Series.min s = Series.min s'.
Proof.
  unfold Series.min. intros Hp.
  destruct (Series.valid s) as [|x v], (Series.valid s') as [|x' v'].
  - done.
  - by apply Permutation_nil_cons in Hp.
  - symmetry in Hp. by apply Permutation_nil_cons in Hp.
  - destruct (foldl_min_least x v) as [Hin Hle].
    destruct (foldl_min_least x' v') as [Hin' Hle'].
    f_equal. apply (anti_symm Qcle).
    + apply Hle. by rewrite Hp.
    + apply Hle'. by rewrite <-Hp.
Qed.

Lemma max_Permutation s s' :
  Series.valid s ≡ₚ Series.valid s' → Series.max s = Series.max s'.
Proof.
  unfold Series.max. intros Hp.
  destruct (Series.valid s) as [|x v], (Series.valid s') as [|x' v'].
  - done.
  - by apply Permutation_nil_cons in Hp.
  - symmetry in Hp. by apply Permutation_nil_cons in Hp.
  - destruct (foldl_max_greatest x v) as [Hin Hle].
    destruct (foldl_max_greatest x' v') as [Hin' Hle'].
    f_equal. apply (anti_symm Qcle).
    + apply Hle'. by rewrite <-Hp.
    + apply Hle. by rewrite Hp.
Qed.

Lemma sort_Permutation v w :
  v ≡ₚ w → merge_sort Qcle v = merge_sort Qcle w.
Proof.
  intros Hp. apply (Sorted_unique Qcle).
  - apply Sorted_merge_sort, _.
  - apply Sorted_merge_sort, _.
  - by rewrite !merge_sort_Permutation.
Qed.

Lemma median_Permutation s s' :
  Series.valid s ≡ₚ Series.valid s' → Series.median s = Series.median s'.
Proof. intros Hp. unfold Series.median. by rewrite (sort_Permutation _ _ Hp). Qed.

End reductions.

(** ** Correlation strength *)

Section classification.
Import Dashboard.
Local Open Scope Qc_scope.

Lemma tier_thresholds : Q2Qc 0.4 < Q2Qc 0.7.
Proof. reflexivity. Qed.

Lemma Qc_abs_nonneg (x : Qc) : 0 ≤ F.Qc_abs x.
Proof.
  unfold F.Qc_abs. case_decide as H; [done|].
  apply Qcnot_le_lt, Qclt_le_weak in H.
  apply (Qcopp_le_compat x 0) in H. exact H.
Qed.

Lemma Qc_abs_cases (x : Qc) : F.Qc_abs x = x ∨ F.Qc_abs x = - x.
Proof. unfold F.Qc_abs. case_decide; auto. Qed.

(** C2.  The strength cascade classifies a coefficient [r] as Strong
    exactly when [|r| > 0.7], as Moderate exactly when
    [0.4 < |r| <= 0.7] and as Weak exactly when [|r| <= 0.4]; a
    coefficient of exactly 0.70 is Moderate and one of exactly 0.40 is
    Weak. *)
Theorem strength_tiers (r : Qc) :
  (strength (Some r) = Strong ↔ Q2Qc 0.7 < F.Qc_abs r) ∧
  (strength (Some r) = Moderate ↔ Q2Qc 0.4 < F.Qc_abs r ∧ F.Qc_abs r ≤ Q2Qc 0.7) ∧
  (strength (Some r) = Weak ↔ F.Qc_abs r ≤ Q2Qc 0.4) ∧
  strength (Some (Q2Qc 0.7)) = Moderate ∧
  strength (Some (Q2Qc 0.4)) = Weak.
Proof.
  pose proof tier_thresholds as Hlt.
  assert (strength (Some (Q2Qc 0.7)) = Moderate) as H7 by reflexivity.
  assert (strength (Some (Q2Qc 0.4)) = Weak) as H4 by reflexivity.
  unfold strength, F.gt, F.abs. simpl.
  generalize (F.Qc_abs r). intros a.
  destruct (decide (Q2Qc 0.7 < a)) as [Hs|Hs].
  - rewrite bool_decide_eq_true_2 by done.
    split_and!; try done; (split; [done|]).
    + intros [_ Hle]. by apply Qcle_not_lt in Hle.
    + intros Hle. exfalso. apply (Qcle_not_lt _ _ Hle). by trans (Q2Qc 0.7).
  - rewrite (bool_decide_eq_false_2 _ Hs).
    destruct (decide (Q2Qc 0.4 < a)) as [Hm|Hm].
    + rewrite bool_decide_eq_true_2 by done.
      split_and!; try done; split; try done.
      * intros _. split; [done|]. by apply Qcnot_lt_le.
      * intros Hle. by apply Qcle_not_lt in Hle.
    + rewrite (bool_decide_eq_false_2 _ Hm).
      split_and!; try done; split; try done.
      * by intros [? _].
      * intros _. by apply Qcnot_lt_le.
Qed.
End classification.

(** ** Aggregate statistics *)

Section aggregate.
Import Dashboard.
Local Open Scope Qc_scope.
Context (sqrt : Qc → Qc).

Lemma column_Permutation df df' key :
  rows df' ≡ₚ rows df →
  Series.valid (DF.column df' key) ≡ₚ Series.valid (DF.column df key).
Proof.
  intros Hp. unfold Series.valid, DF.column.
  by apply omap_Permutation, fmap_Permutation.
Qed.

Lemma dropna_append_missing df r key :
  vals r !! key = None →
  Series.dropna (DF.column (DF.append df r) key) = Series.dropna (DF.column df key).
Proof.
  intros Hr. unfold Series.dropna, DF.column, DF.append. simpl.
  rewrite fmap_app, filter_app. simpl. rewrite Hr.
  rewrite filter_cons_False by (by intros [? ?]). by rewrite filter_nil, app_nil_r.
Qed.

Lemma order_statistics_valid df df' indicator :
  columns df' = columns df →
  Series.valid (DF.column df' indicator) ≡ₚ Series.valid (DF.column df indicator) →
  order_statistics <$> statistics sqrt df' indicator
    = order_statistics <$> statistics sqrt df indicator.
Proof.
  intros Hc Hp. unfold statistics, DF.getitem. rewrite Hc.
  case_decide; [|done]. simpl.
  assert (Series.valid (Series.dropna (DF.column df' indicator))
          ≡ₚ Series.valid (Series.dropna (DF.column df indicator))) as Hd
    by by rewrite !valid_dropna.
  by rewrite (min_Permutation _ _ Hd), (median_Permutation _ _ Hd),
    (max_Permutation _ _ Hd).
Qed.

(** C5, as the code has it.  Of the statistics of an indicator column,
    min, median and max depend only on the multiset of its non-missing
    values: two frames with the same columns whose non-missing values
    for the indicator are permutations of each other have the same min,
    median and max, so permuting the rows changes none of the three.
    Appending a row whose value for the indicator is missing changes
    none of min, median, max and standard deviation, which are taken
    after [dropna()]. *)
Theorem statistics_invariance df df' r indicator :
  columns df' = columns df →
  (Series.valid (DF.column df' indicator) ≡ₚ Series.valid (DF.column df indicator) →
   order_statistics <$> statistics sqrt df' indicator
     = order_statistics <$> statistics sqrt df indicator) ∧
  (rows df' ≡ₚ rows df →
   order_statistics <$> statistics sqrt df' indicator
     = order_statistics <$> statistics sqrt df indicator) ∧
  (vals r !! indicator = None →
   statistics sqrt (DF.append df r) indicator = statistics sqrt df indicator).
Proof.
  intros Hc. split_and!.
  - by apply order_statistics_valid.
  - intros Hp. by apply order_statistics_valid, column_Permutation.
  - intros Hr. unfold statistics, DF.getitem. cbn [DF.append columns].
    case_decide; [|done]. simpl. by rewrite dropna_append_missing.
Qed.

End aggregate.

(** The three tracts in another order, and with a tract without a
    poverty rate appended. *)
Lemma statistics_invariance_witness :
  order_statistics <$> Dashboard.statistics Qc_sqrt three_tracts_permuted "poverty_rate"
    = order_statistics <$> Dashboard.statistics Qc_sqrt three_tracts "poverty_rate" ∧
  Dashboard.statistics Qc_sqrt (DF.append three_tracts tract_missing) "poverty_rate"
    = Dashboard.statistics Qc_sqrt three_tracts "poverty_rate".
Proof.
  destruct (statistics_invariance Qc_sqrt three_tracts three_tracts_permuted
              tract_missing "poverty_rate" eq_refl) as (_ & Hperm & Happend).
  split.
  - apply Hperm. simpl.
    apply (Permutation_cons_app [tract10; tract20] [] tract30). reflexivity.
  - apply Happend. reflexivity.
Defined.

(** The mean is a sum of doubles in row order.  With the poverty rates
    0.1, 0.2 and 0.3 it is 0.20000000000000004, and 0.19999999999999998
    with the rows reversed; with the values [2^53], 1 and [-2^53] it is
    0.0, and a third when the two large values come first. *)
Lemma mean_depends_on_row_order :
  columns tenths_tracts_reversed = columns tenths_tracts ∧
  rows tenths_tracts_reversed ≡ₚ rows tenths_tracts ∧
  mean_float64 tenths_tracts "poverty_rate" = Ok (Some 0x1.999999999999bp-3%float) ∧
  mean_float64 tenths_tracts_reversed "poverty_rate"
    = Ok (Some 0x1.9999999999999p-3%float) ∧
  mean_float64 tenths_tracts_reversed "poverty_rate"
    ≠ mean_float64 tenths_tracts "poverty_rate" ∧
  rows cancelling_tracts_permuted ≡ₚ rows cancelling_tracts ∧
  mean_float64 cancelling_tracts "poverty_rate" = Ok (Some 0%float) ∧
  mean_float64 cancelling_tracts_permuted "poverty_rate"
    = Ok (Some 0x1.5555555555555p-2%float) ∧
  mean_float64 cancelling_tracts_permuted "poverty_rate"
    ≠ mean_float64 cancelling_tracts "poverty_rate".
Proof.
  assert (∀ a b : float, PrimFloat.eqb a a = true → PrimFloat.eqb a b = false →
            Ok (Some a) ≠ @Ok (option float) (Some b)) as Hne.
  { intros a b Haa Hab [= ->]. by rewrite Haa in Hab. }
  split_and!.
  - reflexivity.
  - exact (reverse_Permutation (rows tenths_tracts)).
  - vm_compute. reflexivity.
  - vm_compute. reflexivity.
  - apply Hne; vm_compute; reflexivity.
  - simpl. apply perm_skip, perm_swap.
  - vm_compute. reflexivity.
  - vm_compute. reflexivity.
  - apply Hne; vm_compute; reflexivity.
Qed.

(** ** The comparison never divides by zero *)

Section comparison.
Import Dashboard.
Local Open Scope Qc_scope.
Implicit Types (df : DataFrame) (td : Tract) (key : string).

Lemma ne_zero_false (c : float64) : F.ne c (Some 0) = false ↔ c = Some 0.
Proof.
  destruct c as [q|]; simpl; [|done].
  rewrite bool_decide_eq_false. split.
  - intros H. f_equal. by destruct (decide (q = 0)).
  - intros [= ->]. by intros ?.
Qed.

Lemma div_nonzero (a c : float64) : c ≠ Some 0 → F.div a c = Ok (F.quot a c).
Proof.
  intros Hc. unfold F.div. destruct c as [q|]; [|by destruct a].
  case_decide; [by subst|done].
Qed.

Lemma diff_pct_spec (value city_avg : float64) :
  diff_pct value city_avg =
    Ok (if decide (city_avg = Some 0) then Some 0
        else F.mul (F.quot (F.sub value city_avg) city_avg) (Some (qz 100))).
Proof.
  unfold diff_pct. case_decide as Hc.
  - apply ne_zero_false in Hc. by rewrite Hc.
  - destruct (F.ne city_avg (Some 0)) eqn:Hne.
    + by rewrite div_nonzero.
    + by apply ne_zero_false in Hne.
Qed.

Lemma normalized_spec (tract_val city_val : float64) :
  normalized tract_val city_val =
    Ok (if decide (city_val = Some 0) then Some (qz 100)
        else F.mul (F.quot tract_val city_val) (Some (qz 100))).
Proof.
  unfold normalized. case_decide as Hc.
  - apply ne_zero_false in Hc. by rewrite Hc.
  - destruct (F.ne city_val (Some 0)) eqn:Hne.
    + by rewrite div_nonzero.
    + by apply ne_zero_false in Hne.
Qed.

Lemma has_value_spec df td key :
  has_value df td key = true ↔ key ∈ columns df ∧ is_Some (vals td !! key).
Proof.
  unfold has_value, F.notna.
  by rewrite andb_true_iff, !bool_decide_eq_true.
Qed.

Lemma hundred_positive : 0 < qz 100.
Proof. reflexivity. Qed.

Lemma times_hundred (value : Qc) : value / qz 100 * qz 100 = value.
Proof. by field. Qed.

(** The progress value of a number is a number, at most 1, and not
    negative unless the number is a negative percentage. *)
Lemma progress_range (value : Qc) (unit : string) :
  ∃ p, progress (Some value) unit = Ok (Some p) ∧ p ≤ 1 ∧
       (¬ (unit = "%" ∧ value < 0) → 0 ≤ p).
Proof.
  unfold progress. case_decide as Hu.
  - rewrite div_nonzero by (by intros [=]). simpl. unfold F.min, F.gt.
    case_bool_decide as Hgt.
    + exists 1. by split_and!.
    + exists (value / qz 100). split_and!; [done|by apply Qcnot_lt_le|].
      intros Hv. apply Qcmult_lt_0_le_reg_r with (qz 100); [apply hundred_positive|].
      rewrite times_hundred, Qcmult_0_l. apply Qcnot_lt_le. intros Hlt. by apply Hv.
  - exists (Q2Qc 0.5). by split_and!.
Qed.

Lemma st_progress_Ok (p : Qc) : 0 ≤ p → p ≤ 1 → st_progress (Some p) = Ok ().
Proof.
  intros H0 H1. unfold st_progress, check_float_between.
  by rewrite !bool_decide_eq_true_2.
Qed.

Lemma st_progress_cases (p : float64) :
  st_progress p = Ok () ∨ st_progress p = Raise StreamlitAPIException.
Proof. unfold st_progress. destruct (check_float_between p); auto. Qed.

(** One round of the metrics loop, for a metric the tract has a value
    for. *)
Lemma show_metrics_step df td key label unit rest (value : Qc) :
  key ∈ columns df →
  vals td !! key = Some value →
  ∃ d p,
    diff_pct (Some value) (Series.mean (DF.column df key)) = Ok d ∧
    progress (Some value) unit = Ok p ∧
    show_metrics df td ((key, label, unit) :: rest)
      = (_ ← st_progress p;
         lines ← show_metrics df td rest;
         Ok ({| line_label := label; line_value := Some value; line_unit := unit;
                line_progress := p; line_diff_pct := d |} :: lines)) ∧
    (¬ (unit = "%" ∧ value < 0) → st_progress p = Ok ()).
Proof.
  intros Hk Hv.
  destruct (progress_range value unit) as (p & Hp & Hp1 & Hp0).
  eexists _, (Some p). split; [apply diff_pct_spec|]. split; [done|]. split.
  - cbn [show_metrics].
    assert (has_value df td key = true) as ->
      by (apply has_value_spec; rewrite Hv; eauto).
    rewrite row_getitem_column, getitem_column by done. simpl.
    by rewrite Hv, diff_pct_spec, Hp.
  - intros Hn. apply st_progress_Ok; auto.
Qed.

(** What the metrics loop returns, and what can stop it. *)
Lemma show_metrics_spec df td metrics :
  match show_metrics df td metrics with
  | Ok lines => Forall2 (shows df td) (kept_metrics df td metrics) lines
  | Raise e =>
      e = StreamlitAPIException ∧
      ∃ m, m ∈ kept_metrics df td metrics ∧ negative_percentage td m
  end.
Proof.
  unfold kept_metrics.
  induction metrics as [|[[key label] unit] rest IH]; [by constructor|].
  destruct (has_value df td key) eqn:Hh.
  - rewrite filter_cons_True by (by apply Is_true_true_2).
    pose proof Hh as [Hk [value Hv]]%has_value_spec.
    destruct (show_metrics_step df td key label unit rest value Hk Hv)
      as (d & p & Hd & Hp & -> & Hok).
    destruct (st_progress_cases p) as [Esp|Esp]; rewrite Esp; simpl.
    + destruct (show_metrics df td rest) as [lines|e]; simpl.
      * constructor; [|done]. unfold shows. simpl. rewrite Hv. by split_and!.
      * destruct IH as [-> (m & Hin & Hm)]. split; [done|].
        exists m. split; [by right|done].
    + split; [done|]. exists (key, label, unit). split; [left|].
      destruct (decide (unit = "%" ∧ value < 0)) as [[Hu Hneg]|Hn].
      * split; eauto.
      * rewrite (Hok Hn) in Esp. discriminate.
  - rewrite filter_cons_False by (by apply Is_true_false_2).
    cbn [show_metrics]. by rewrite Hh.
Qed.

Lemma show_metrics_completes df td metrics :
  (∀ m, m ∈ kept_metrics df td metrics → ¬ negative_percentage td m) →
  is_Ok (show_metrics df td metrics).
Proof.
  intros Hnn. pose proof (show_metrics_spec df td metrics) as H.
  destruct (show_metrics df td metrics) as [lines|e]; [by eexists|].
  destruct H as [_ (m & Hin & Hm)]. by destruct (Hnn m).
Qed.

Lemma radar_loop_Ok df td inds acc : is_Ok (radar_loop df td inds acc).
Proof.
  revert acc. induction inds as [|ind rest IH]; intros acc; simpl; [by eexists|].
  destruct (has_value df td ind) eqn:Hv; [|done].
  apply has_value_spec in Hv as [Hk _].
  unfold DF.row_getitem, DF.getitem. rewrite !decide_True by done. simpl.
  rewrite normalized_spec. simpl. apply IH.
Qed.

(** C1.  In the tract-vs-city comparison of an indicator the tract has
    a value for, with the column mean as city aggregate: when the city
    aggregate equals 0 the percent delta is 0 and the normalized value is
    100; when it is not 0 the percent delta is
    [(value - city) / city * 100] and the normalized value is
    [value / city * 100].  These are the percent delta of the line the
    metrics loop shows for the indicator and the value the radar loop
    appends for it.  Neither expression and neither loop raises a
    division-by-zero error. *)
Theorem comparison_zero_guard df td key label unit value :
  key ∈ columns df →
  vals td !! key = Some value →
  let city_avg := Series.mean (DF.column df key) in
  ∃ d n,
    diff_pct (Some value) city_avg = Ok d ∧
    normalized (Some value) city_avg = Ok n ∧
    (city_avg = Some 0 → d = Some 0 ∧ n = Some (qz 100)) ∧
    (city_avg ≠ Some 0 →
       d = F.mul (F.quot (F.sub (Some value) city_avg) city_avg) (Some (qz 100)) ∧
       n = F.mul (F.quot (Some value) city_avg) (Some (qz 100))) ∧
    (∀ lines, show_metrics df td [(key, label, unit)] = Ok lines →
       ∃ p, lines = [ {| line_label := label; line_value := Some value;
                         line_unit := unit; line_progress := p;
                         line_diff_pct := d |} ]) ∧
    radar df td [key]
      = Ok {| tract_values := [n]; city_values := [qz 100];
              labels := [radar_label key] |} ∧
    (∀ metrics, show_metrics df td metrics ≠ Raise ZeroDivisionError) ∧
    (∀ inds, radar df td inds ≠ Raise ZeroDivisionError) ∧
    (∀ v c, diff_pct v c ≠ Raise ZeroDivisionError ∧
            normalized v c ≠ Raise ZeroDivisionError).
Proof.
  intros Hk Hv city_avg.
  exists
    (if decide (city_avg = Some 0) then Some 0
     else F.mul (F.quot (F.sub (Some value) city_avg) city_avg) (Some (qz 100))),
    (if decide (city_avg = Some 0) then Some (qz 100)
     else F.mul (F.quot (Some value) city_avg) (Some (qz 100))).
  assert (has_value df td key = true) as Hh
    by (apply has_value_spec; rewrite Hv; eauto).
  split_and!.
  - apply diff_pct_spec.
  - apply normalized_spec.
  - intros Hz. by rewrite !decide_True.
  - intros Hz. by rewrite !decide_False.
  - intros lines.
    destruct (show_metrics_step df td key label unit [] value Hk Hv)
      as (d & p & Hd & _ & -> & _).
    rewrite diff_pct_spec in Hd. injection Hd as <-.
    destruct (st_progress p); simpl; [|done]. intros [= <-]. by exists p.
  - unfold radar. simpl. rewrite Hh. unfold DF.row_getitem, DF.getitem.
    rewrite !decide_True by done. simpl. by rewrite Hv, normalized_spec.
  - intros metrics E. pose proof (show_metrics_spec df td metrics) as H.
    rewrite E in H. by destruct H as [? _].
  - intros inds E. destruct (radar_loop_Ok df td inds
      {| tract_values := []; city_values := []; labels := [] |}) as [r Hr].
    unfold radar in E. by rewrite Hr in E.
  - intros v c. by rewrite diff_pct_spec, normalized_spec.
Qed.

End comparison.

(** A city whose mean uninsured rate is 0: the percent delta is 0 and
    the normalized value 100. *)
Lemma comparison_zero_guard_witness :
  Dashboard.diff_pct (Some (qz 4)) (Series.mean (DF.column zero_city "uninsured_rate"))
    = Ok (Some 0%Qc) ∧
  Dashboard.normalized (Some (qz 4)) (Series.mean (DF.column zero_city "uninsured_rate"))
    = Ok (Some (qz 100)) ∧
  Dashboard.radar zero_city (tract_of 1 [("uninsured_rate", 4%Z)]) ["uninsured_rate"]
    = Ok {| Dashboard.tract_values := [Some (qz 100)];
            Dashboard.city_values := [qz 100];
            Dashboard.labels := ["Uninsured Rate"] |}.
Proof.
  destruct (comparison_zero_guard zero_city (tract_of 1 [("uninsured_rate", 4%Z)])
              "uninsured_rate" "Uninsured Rate" "%" (qz 4))
    as (d & n & Hd & Hn & Hzero & _ & _ & Hr & _).
  - apply list_elem_of_here.
  - reflexivity.
  - destruct Hzero as [-> ->].
    + vm_compute. qc_eq.
    + split_and!; [exact Hd | exact Hn | exact Hr].
Defined.

(** ** Missing tract values are skipped, in order *)

Section radar_order.
Import Dashboard.
Local Open Scope Qc_scope.
Implicit Types (df : DataFrame) (td : Tract).

Lemma radar_loop_spec df td inds acc :
  ∃ tv,
    radar_loop df td inds acc
      = Ok {| tract_values := tract_values acc ++ tv;
              city_values := city_values acc
                               ++ replicate (length (kept_indicators df td inds)) (qz 100);
              labels := labels acc ++ (radar_label <$> kept_indicators df td inds) |} ∧
    Forall2 (λ ind n, normalized (vals td !! ind) (Series.mean (DF.column df ind)) = Ok n)
      (kept_indicators df td inds) tv.
Proof.
  revert acc. induction inds as [|ind rest IH]; intros acc.
  - exists []. simpl. rewrite !app_nil_r. by destruct acc.
  - cbn [radar_loop]. unfold kept_indicators in *.
    destruct (has_value df td ind) eqn:Hv.
    + rewrite filter_cons_True by (by apply Is_true_true_2).
      pose proof Hv as [Hk _]%has_value_spec.
      unfold DF.row_getitem, DF.getitem. rewrite !decide_True by done. simpl.
      rewrite normalized_spec. simpl.
      edestruct IH as (tv & -> & Htv). eexists (_ :: tv). split.
      * simpl. by rewrite <-!(assoc_L (++)).
      * constructor; [|done]. by rewrite normalized_spec.
    + rewrite filter_cons_False by (by apply Is_true_false_2). apply IH.
Qed.

(** C4.  Over any ordered list of indicator keys, the comparison emits
    one entry per kept indicator and nothing else: the kept indicators
    are those of the list that are columns and for which the tract has a
    value, in the order of the list; an indicator whose tract value is
    missing is not among them, and no placeholder stands in for it. *)
Theorem radar_skips_missing df td inds :
  ∃ tv,
    radar df td inds
      = Ok {| tract_values := tv;
              city_values := replicate (length (kept_indicators df td inds)) (qz 100);
              labels := radar_label <$> kept_indicators df td inds |} ∧
    Forall2 (λ ind n, normalized (vals td !! ind) (Series.mean (DF.column df ind)) = Ok n)
      (kept_indicators df td inds) tv ∧
    kept_indicators df td inds `sublist_of` inds ∧
    (∀ ind, ind ∈ kept_indicators df td inds
            ↔ ind ∈ inds ∧ ind ∈ columns df ∧ is_Some (vals td !! ind)) ∧
    (∀ ind, vals td !! ind = None → ind ∉ kept_indicators df td inds).
Proof.
  destruct (radar_loop_spec df td inds
              {| tract_values := []; city_values := []; labels := [] |})
    as (tv & Hr & Htv).
  exists tv. split_and!; try done.
  - apply sublist_filter.
  - intros ind. unfold kept_indicators. rewrite list_elem_of_filter.
    rewrite Is_true_true, has_value_spec. tauto.
  - intros ind Hn. unfold kept_indicators. rewrite list_elem_of_filter.
    rewrite Is_true_true, has_value_spec, Hn. intros [[_ []] _]. done.
Qed.

End radar_order.

(** ** Worked examples *)


Section examples.
Import Dashboard.
Local Open Scope Qc_scope.


Lemma three_tracts_statistics sqrt :
  statistics sqrt three_tracts "poverty_rate"
    = Ok (Some (qz 10), Some (qz 20), Some (qz 30), Some (sqrt (qz 100))).
Proof.
  unfold statistics. rewrite getitem_column by (apply list_elem_of_here). simpl.
  unfold Series.std.
  replace (Series.min _) with (Some (qz 10)) by (vm_compute; qc_eq).
  replace (Series.median _) with (Some (qz 20)) by (vm_compute; qc_eq).
  replace (Series.max _) with (Some (qz 30)) by (vm_compute; qc_eq).
  replace (Series.var _) with (Some (qz 100)) by (vm_compute; qc_eq).
  done.
Qed.

(** C6.  For three tracts with poverty rates 10, 20 and 30 the
    statistics are min 10, median 20, max 30 and mean 20; for the tract
    whose rate is 30 the delta is +10, the percent delta +50 and the
    normalized value 150. *)
Theorem three_tracts_scenario sqrt :
  aggregate sqrt three_tracts "poverty_rate"
    = Ok (Some (qz 10), Some (qz 20), Some (qz 30), Some (sqrt (qz 100)), Some (qz 20)) ∧
  select_tract three_tracts "Tract 010300" = Ok tract30 ∧
  col1_poverty three_tracts tract30 = Ok (Some (qz 30), Some (qz 10)) ∧
  show_metrics three_tracts tract30 [("poverty_rate", "Poverty Rate", "%")]
    = Ok [ {| line_label := "Poverty Rate"; line_value := Some (qz 30);
              line_unit := "%"; line_progress := Some (Q2Qc 0.3);
              line_diff_pct := Some (qz 50) |} ] ∧
  radar three_tracts tract30 ["poverty_rate"]
    = Ok {| tract_values := [Some (qz 150)]; city_values := [qz 100];
            labels := ["Poverty Rate"] |}.
Proof.
  split_and!.
  - unfold aggregate. rewrite three_tracts_statistics.
    rewrite getitem_column by (apply list_elem_of_here). simpl.
    replace (Series.mean _) with (Some (qz 20)) by (vm_compute; qc_eq). done.
  - vm_compute. reflexivity.
  - vm_compute. qc_eq.
  - vm_compute. qc_eq.
  - vm_compute. qc_eq.
Qed.

End examples.

(** ** Key indicator deltas *)

Section key_indicators.
Import Dashboard.
Local Open Scope Qc_scope.


(** C7.  For each of the four key indicators the delta shown is the
    tract's value minus the city aggregate, where the city aggregate is
    the median of the column for [median_household_income_econ] and the
    mean of the column for every other indicator. *)
Theorem key_indicator_delta df td key :
  key ∈ [ "poverty_rate"; "unemployment_rate";
          "median_household_income_econ"; "gini_index" ] →
  key ∈ columns df →
  key_indicator df td key
    = Some (Ok (vals td !! key, F.sub (vals td !! key) (city_aggregate df key))) ∧
  city_aggregate df key
    = (if decide (key = "median_household_income_econ")
       then Series.median (DF.column df key)
       else Series.mean (DF.column df key)) ∧
  ∀ value city, F.sub (Some value) (Some city) = Some (value - city).
Proof.
  intros Hkey Hk. split_and!; [|done..].
  repeat (apply elem_of_cons in Hkey as [->|Hkey]); [..|by apply elem_of_nil in Hkey].
  all: unfold key_indicator, city_aggregate; simpl.
  all: unfold col1_poverty, col2_unemployment, col3_income, col4_gini.
  all: by rewrite row_getitem_column, getitem_column.
Qed.

End key_indicators.

(** Incomes 1, 2 and 9: the tract with income 9 is 7 above the median
    2 (the mean is 4). *)
Lemma key_indicator_delta_witness :
  Dashboard.key_indicator skewed_incomes (key_row 3 9) "median_household_income_econ"
    = Some (Ok (Some (qz 9), Some (qz 7))) ∧
  Series.mean (DF.column skewed_incomes "median_household_income_econ") = Some (qz 4).
Proof.
  split.
  - destruct (key_indicator_delta skewed_incomes (key_row 3 9)
                "median_household_income_econ") as (-> & _ & _).
    + do 2 apply list_elem_of_further. apply list_elem_of_here.
    + do 2 apply list_elem_of_further. apply list_elem_of_here.
    + vm_compute. qc_eq.
  - vm_compute. qc_eq.
Defined.

(** ** Correlation on fewer than two paired observations *)

Section correlation.
Import Dashboard.
Local Open Scope Qc_scope.
Context (sqrt : Qc → Qc).

Lemma count_one (a : Qc) : Series.count [a] = 1.
Proof. apply Qc_is_canon. reflexivity. Qed.

Lemma corr_insufficient (sx sy : Series.t) :
  sqrt 0 = 0 →
  (length (Series.paired sx sy) < 2)%nat →
  Series.corr sqrt sx sy = NaN.
Proof.
  intros Hsqrt Hlen. unfold Series.corr.
  destruct (Series.paired sx sy) as [|[a b] [|p ps]]; simpl in *; [done| |lia].
  rewrite !count_one.
  replace ((a - (a + 0) / 1) * (a - (a + 0) / 1) + 0) with (Q2Qc 0) by (field; done).
  rewrite Qcmult_0_l, Hsqrt. by rewrite decide_True.
Qed.

(** C3, as the code has it.  With fewer than two rows in which both
    columns are present, the analysis does not fail: the coefficient is
    NaN and the strength shown is Weak. *)
Theorem correlation_insufficient df x_var y_var :
  sqrt 0 = 0 →
  x_var ∈ columns df →
  y_var ∈ columns df →
  (length (Series.paired (DF.column df x_var) (DF.column df y_var)) < 2)%nat →
  show_indicator_analysis sqrt df x_var y_var = Ok (NaN, Weak).
Proof.
  intros Hsqrt Hx Hy Hlen. unfold show_indicator_analysis, px_scatter, DF.corr.
  rewrite !decide_True, !getitem_column by done. simpl.
  by rewrite corr_insufficient.
Qed.

End correlation.

Lemma Qc_sqrt_0 : Qc_sqrt 0%Qc = 0%Qc.
Proof. apply Qc_is_canon. reflexivity. Qed.

(** A frame of one tract. *)
Lemma correlation_insufficient_witness :
  Dashboard.show_indicator_analysis Qc_sqrt one_tract "poverty_rate" "uninsured_rate"
    = Ok (NaN, Dashboard.Weak).
Proof.
  apply (correlation_insufficient Qc_sqrt one_tract "poverty_rate" "uninsured_rate").
  - exact Qc_sqrt_0.
  - apply list_elem_of_here.
  - apply list_elem_of_further, list_elem_of_here.
  - vm_compute. lia.
Defined.

(** The single tract of [one_tract] gives one paired observation; the
    analysis does not fail on it, it reports an undefined coefficient as
    a weak correlation. *)
Lemma correlation_not_refused :
  (length (Series.paired (DF.column one_tract "poverty_rate")
                         (DF.column one_tract "uninsured_rate")) < 2)%nat ∧
  Dashboard.show_indicator_analysis Qc_sqrt one_tract "poverty_rate" "uninsured_rate"
    = Ok (NaN, Dashboard.Weak) ∧
  ¬ ∃ e, Dashboard.show_indicator_analysis Qc_sqrt one_tract
           "poverty_rate" "uninsured_rate" = Raise e.
Proof.
  assert (Dashboard.show_indicator_analysis Qc_sqrt one_tract
            "poverty_rate" "uninsured_rate" = Ok (NaN, Dashboard.Weak)) as E
    by (vm_compute; reflexivity).
  split_and!; [vm_compute; lia|done|]. rewrite E. by intros [e ?].
Qed.


(** ** Loading the data *)

Section loading.
Import Dashboard.

(** C8, as the code has it.  The loader reports the failure and returns
    no dataset exactly when the file does not exist or does not parse;
    a table that parses is returned, whatever its number of rows; and
    when no dataset is returned [main] stops after the error message,
    without raising. *)
Theorem load_data_unavailable (fs : gmap string File) :
  (load_data fs = ([data_not_found], None)
   ↔ fs !! data_path = None ∨ fs !! data_path = Some Malformed) ∧
  (∀ df, fs !! data_path = Some (Table df) → load_data fs = ([], Some df)) ∧
  (fs !! data_path = None ∨ fs !! data_path = Some Malformed →
   ∀ sqrt view_mode, main sqrt fs view_mode = Ok ([data_not_found], None)).
Proof.
  unfold main, load_data, read_csv.
  destruct (fs !! data_path) as [[df|]|]; split_and!; try done.
  - split; [done|]. by intros [|].
  - by intros df' [= ->].
  - by intros [|].
  - split; [|done]. by right.
  - split; [|done]. by left.
Qed.

(** A header without rows parses, so it is loaded as a dataset. *)
Lemma load_data_header_only :
  header_only_fs !! data_path = Some (Table header_only) ∧
  rows header_only = [] ∧
  load_data header_only_fs = ([], Some header_only).
Proof. split_and!; reflexivity. Qed.

End loading.

(** ** The pipeline stops at the first failing step *)

Section pipeline.
Import Pipeline.
Context {World : Type}.
Context (subprocess_run : World → string → nat → Outcome * World).
Context (path_exists : World → string → bool).
Context (read_csv_len : World → string → option nat).

Abbreviation State := (@State World).
Abbreviation run_script := (run_script subprocess_run).
Abbreviation run_steps := (run_steps subprocess_run).
Abbreviation check_prerequisites := (check_prerequisites path_exists).
Abbreviation run_validation := (run_validation path_exists read_csv_len).
Abbreviation main := (main subprocess_run path_exists read_csv_len).

Implicit Types (s : State) (new : list Event).


Lemma halts_nil : halts [].
Proof. by intros i script o ?. Qed.

Lemma all_succeeded_nil : all_succeeded [].
Proof. intros script o H. by apply elem_of_nil in H. Qed.

Lemma halts_app new1 new2 :
  all_succeeded new1 → halts new2 → halts (new1 ++ new2).
Proof.
  intros H1 H2 i script o Hi Ho. rewrite length_app.
  apply lookup_app_Some in Hi as [Hi|[Hle Hi]].
  - apply list_elem_of_lookup_2 in Hi. rewrite (H1 _ _ Hi) in Ho. done.
  - rewrite (H2 _ _ _ Hi Ho). lia.
Qed.

Lemma all_succeeded_app new1 new2 :
  all_succeeded new1 → all_succeeded new2 → all_succeeded (new1 ++ new2).
Proof.
  intros H1 H2 script o [?|?]%elem_of_app; eauto.
Qed.

Lemma run_script_trace script description s :
  ∃ o, trace (run_script script description s).2 = trace s ++ [Ran script o] ∧
       (run_script script description s).1 = succeeded o.
Proof.
  unfold Pipeline.run_script.
  destruct (subprocess_run (world s) script timeout) as [o w]. by exists o.
Qed.

Lemma run_script_ok script description s :
  step_ok (run_script script description s) s.
Proof.
  destruct (run_script_trace script description s) as (o & Ht & Hb).
  exists [Ran script o]. split_and!; [done| |].
  - intros [|i] script' o' Hi Ho; [done|]. by destruct i.
  - rewrite Hb. intros Ho script' o' [= -> ->]%list_elem_of_singleton. done.
Qed.

Lemma step_ok_then (m : M bool) (k : M bool) s :
  step_ok (m s) s →
  (∀ s', step_ok (k s') s') →
  step_ok (bind m (λ ok, if negb ok then ret false else k) s) s.
Proof.
  intros (new1 & Ht1 & Hh1 & Ha1) Hk. unfold bind.
  destruct (m s) as [[|] s1]; simpl in *.
  - destruct (Hk s1) as (new2 & Ht2 & Hh2 & Ha2).
    exists (new1 ++ new2). split_and!.
    + by rewrite Ht2, Ht1, (assoc_L (++)).
    + apply halts_app; auto.
    + intros Hb. apply all_succeeded_app; auto.
  - exists new1. split_and!; done.
Qed.

Lemma run_steps_ok steps s : step_ok (run_steps steps s) s.
Proof.
  revert s. induction steps as [|[script description] rest IH]; intros s.
  - exists []. simpl. rewrite app_nil_r.
    split_and!; auto using halts_nil, all_succeeded_nil.
  - simpl. apply step_ok_then; [apply run_script_ok|done].
Qed.

Lemma exists_state path s : (exists_ path_exists path s).2 = s.
Proof. done. Qed.

Lemma check_scripts_state scripts all_good s :
  (check_scripts path_exists scripts all_good s).2 = s.
Proof.
  revert all_good. induction scripts as [|script rest IH]; intros all_good; [done|].
  simpl. unfold bind. simpl. apply IH.
Qed.

Lemma check_prerequisites_state s : (check_prerequisites s).2 = s.
Proof.
  unfold Pipeline.check_prerequisites, bind. cbn [exists_ snd].
  apply check_scripts_state.
Qed.

Lemma run_validation_trace s :
  ∃ passed,
    run_validation s
      = ((passed =? 5)%nat, {| world := world s; trace := trace s ++ [Validated passed 5] |}).
Proof.
  unfold Pipeline.run_validation, bind, check_file, check_completeness, emit,
    exists_, ret. simpl. by eexists.
Qed.

Lemma validated_ok passed total :
  halts [Validated passed total] ∧ all_succeeded [Validated passed total].
Proof.
  split.
  - intros [|i] script o Hi; [done|]. by destruct i.
  - by intros script o [=]%list_elem_of_singleton.
Qed.

Lemma step_ok_ret b s : step_ok (ret b s) s.
Proof.
  exists []. simpl. rewrite app_nil_r.
  split_and!; auto using halts_nil, all_succeeded_nil.
Qed.

(** [if success and not k(): success = False] *)
Lemma step_ok_guarded (k : M bool) (r : bool * State) s :
  step_ok r s →
  (∀ s', step_ok (k s') s') →
  step_ok ((if r.1 then bind k (λ ok, ret (if negb ok then false else r.1))
            else ret r.1) r.2) s.
Proof.
  intros (new1 & Ht1 & Hh1 & Ha1) Hk. destruct r as [[|] s1]; simpl in *.
  - unfold bind. destruct (Hk s1) as (new2 & Ht2 & Hh2 & Ha2).
    destruct (k s1) as [ok s2]; unfold ret; simpl in *.
    exists (new1 ++ new2). split_and!.
    + cbn [snd]. by rewrite Ht2, Ht1, (assoc_L (++)).
    + apply halts_app; auto.
    + destruct ok; [|done]. intros _. apply all_succeeded_app; auto.
  - exists new1. split_and!; done.
Qed.

(** C9.  In every run of the driver, from any state and with any
    flags, a step that times out, fails to start, or exits with a
    non-zero status is the last event of the run: no extraction,
    integration or generation step, and no validation, follows it. *)
Theorem main_halts_at_first_failure (args : Args) s :
  timeout = (5 * 60)%nat ∧
  ∃ new,
    trace (main args s).2 = trace s ++ new ∧
    ∀ i script o,
      new !! i = Some (Ran script o) →
      (o = TimeoutExpired ∨ (∃ message, o = OtherException message) ∨
       ∃ returncode stdout stderr,
         o = Completed returncode stdout stderr ∧ returncode ≠ 0%Z) →
      length new = S i.
Proof.
  split; [done|].
  assert (∃ new, trace (main args s).2 = trace s ++ new ∧ halts new)
    as (new & Ht & Hh).
  { unfold Pipeline.main, bind.
    destruct (check_prerequisites s) as [pre s0] eqn:E0.
    assert (s0 = s) as ->.
    { pose proof (check_prerequisites_state s) as H. by rewrite E0 in H. }
    destruct (validate_only args).
    - destruct (run_validation_trace s) as [passed ->]. simpl.
      exists [Validated passed 5]. split; [done|apply validated_ok].
    - set (stage1 := if negb (skip_download args) then _ else _).
      assert (step_ok (stage1 s) s) as H1.
      { subst stage1. destruct (skip_download args); simpl; [apply step_ok_ret|].
        pose proof (run_steps_ok extraction_steps s) as H.
        unfold run_data_extraction.
        destruct (Pipeline.run_steps _ _ _) as [[|] s1]; exact H. }
      destruct (stage1 s) as [b1 s1]. clear stage1.
      pose proof (step_ok_guarded
                    (run_data_integration subprocess_run) (b1, s1) s H1
                    (λ s', run_script_ok _ _ s')) as H2.
      simpl in H2. unfold bind in H2.
      destruct (if b1 then _ else _) as [b2 s2]. clear H1.
      pose proof (step_ok_guarded
                    (run_dashboard_generation subprocess_run) (b2, s2) s H2
                    (λ s', run_script_ok _ _ s')) as H3.
      simpl in H3. unfold bind in H3.
      destruct (if b2 then _ else _) as [b3 s3]. clear H2.
      destruct H3 as (new & Ht & Hh & Ha). cbn [fst snd] in Ht, Ha.
      destruct b3; cbv beta iota.
      + destruct (run_validation_trace s3) as [passed ->]. simpl.
        exists (new ++ [Validated passed 5]). split.
        * by rewrite Ht, (assoc_L (++)).
        * apply halts_app; [by apply Ha|apply validated_ok].
      + by exists new. }
  exists new. split; [done|]. intros i script o Hi Ho. apply (Hh i script o Hi).
  destruct Ho as [->|[[message ->]|(rc & out & err & -> & Hrc)]]; simpl; try done.
  by apply bool_decide_eq_false.
Qed.

End pipeline.

(** ** Exit status *)

(** C10.  On a world in which every script exits with status 0 and the
    validation passes 4 of its 5 checks, the full run reports the failed
    validation in its trace and still exits with status 0, while the
    validation-only run on the same world exits with status 1. *)
Theorem full_run_ignores_validation :
  let start := {| Pipeline.world := (); Pipeline.trace := [] |} in
  Pipeline.main all_steps_pass every_file_exists short_table full_run start
    = (0%Z,
       {| Pipeline.world := ();
          Pipeline.trace :=
            [ Pipeline.Ran "expand_health_indicators.py" (Pipeline.Completed 0 "" "");
              Pipeline.Ran "fetch_census_economic_data.py" (Pipeline.Completed 0 "" "");
              Pipeline.Ran "integrate_economic_data.py" (Pipeline.Completed 0 "" "");
              Pipeline.Ran "Baltimore_MetricsWithMap.py" (Pipeline.Completed 0 "" "");
              Pipeline.Validated 4 5 ] |}) ∧
  (Pipeline.main all_steps_pass every_file_exists short_table validation_run start).1
    = 1%Z.
Proof. split; reflexivity. Qed.

(** * Further properties *)

(** ** The driver, step by step *)

Section driver_steps.
Import Pipeline.
Context {World : Type}.
Context (subprocess_run : World → string → nat → Outcome * World).
Context (path_exists : World → string → bool).
Context (read_csv_len : World → string → option nat).

Abbreviation St := (@State World).
Implicit Types (s : St) (l : list (string * Outcome)).

Lemma scripts_run_ran l : scripts_run (ran l) = l.*1.
Proof. induction l as [|[script o] l IH]; [done|]. simpl. by f_equal. Qed.

Lemma validations_ran l : validations (ran l) = [].
Proof. induction l as [|[script o] l IH]; [done|]. by simpl. Qed.

Lemma all_succeeded_ran l :
  all_succeeded (ran l) ↔ Forall (λ p, succeeded p.2 = true) l.
Proof.
  unfold all_succeeded, ran. rewrite Forall_forall. split.
  - intros H [script o] Hin. apply (H script o).
    apply list_elem_of_fmap. by exists (script, o).
  - intros H script o ([script' o'] & [= -> ->] & Hin)%list_elem_of_fmap.
    by apply (H (script', o')).
Qed.

Lemma stage_nil : stage [] true [].
Proof. split; [done|]. by split. Qed.

(** [if b1 then (run the next stage) else stop]. *)
Lemma stage_app plan1 plan2 b1 b2 l1 l2 :
  stage plan1 b1 l1 →
  (if b1 then stage plan2 b2 l2 else b2 = false ∧ l2 = []) →
  stage (plan1 ++ plan2) b2 (l1 ++ l2).
Proof.
  intros [Hp1 H1] H2. destruct b1.
  - destruct H1 as [E1 F1], H2 as [Hp2 H2]. split.
    + rewrite fmap_app, E1. by apply prefix_app.
    + destruct b2.
      * destruct H2 as [E2 F2]. split; [by rewrite fmap_app, E1, E2|].
        by apply Forall_app.
      * destruct H2 as (l0 & p & -> & F0 & Hp).
        exists (l1 ++ l0), p. split_and!; [by rewrite (assoc_L (++))| |done].
        by apply Forall_app.
  - destruct H2 as [-> ->]. rewrite app_nil_r. split; [|done].
    by apply prefix_app_r.
Qed.

Lemma run_script_stage script description s :
  ∃ o, run_script subprocess_run script description s
         = (succeeded o,
            {| world := (subprocess_run (world s) script timeout).2;
               trace := trace s ++ ran [(script, o)] |}) ∧
       stage [script] (succeeded o) [(script, o)].
Proof.
  unfold run_script.
  destruct (subprocess_run (world s) script timeout) as [o w]. exists o.
  split; [done|]. split; [done|].
  destruct (succeeded o) eqn:Ho.
  - split; [done|]. by repeat constructor.
  - exists [], (script, o). by split_and!.
Qed.

Lemma run_steps_stage steps s :
  ∃ l, trace (run_steps subprocess_run steps s).2 = trace s ++ ran l ∧
       stage steps.*1 (run_steps subprocess_run steps s).1 l.
Proof.
  revert s. induction steps as [|[script description] rest IH]; intros s.
  - exists []. simpl. rewrite app_nil_r. split; [done|apply stage_nil].
  - simpl. unfold bind.
    destruct (run_script_stage script description s) as (o & -> & Hs).
    set (st := {| world := _; trace := _ |}).
    destruct (succeeded o) eqn:Ho; cbn [negb]; cbv beta iota.
    + destruct (IH st) as (l & Ht & Hl).
      exists ([(script, o)] ++ l). split.
      * rewrite Ht. subst st. cbn [trace]. unfold ran.
        by rewrite fmap_app, (assoc_L (++)).
      * apply (stage_app [script] _ true); done.
    + exists [(script, o)]. split; [done|].
      rewrite <-(app_nil_r [(script, o)]).
      apply (stage_app [script] _ false); done.
Qed.

Lemma run_script_stage' script description s :
  ∃ l, trace (run_script subprocess_run script description s).2 = trace s ++ ran l ∧
       stage [script] (run_script subprocess_run script description s).1 l.
Proof.
  destruct (run_script_stage script description s) as (o & -> & Hs).
  by exists [(script, o)].
Qed.

(** [if success and not k(): success = False], for stages. *)
Lemma stage_guarded (k : M bool) plan1 plan2 (r : bool * St) s l1 :
  trace r.2 = trace s ++ ran l1 →
  stage plan1 r.1 l1 →
  (∀ s', ∃ l2, trace (k s').2 = trace s' ++ ran l2 ∧ stage plan2 (k s').1 l2) →
  ∃ l,
    trace ((if r.1 then bind k (λ ok, ret (if negb ok then false else r.1))
            else ret r.1) r.2).2 = trace s ++ ran l ∧
    stage (plan1 ++ plan2)
      ((if r.1 then bind k (λ ok, ret (if negb ok then false else r.1))
        else ret r.1) r.2).1 l.
Proof.
  intros Ht1 H1 Hk. destruct r as [[|] s1]; cbn [fst snd] in *.
  - unfold bind. destruct (Hk s1) as (l2 & Ht2 & H2).
    destruct (k s1) as [ok s2]; unfold ret; cbn [fst snd] in *.
    exists (l1 ++ l2). split.
    + rewrite Ht2, Ht1. unfold ran. by rewrite fmap_app, (assoc_L (++)).
    + replace (if negb ok then false else true) with ok by by destruct ok.
      by apply (stage_app _ _ true).
  - exists l1. split; [done|]. rewrite <-(app_nil_r l1).
    by apply (stage_app _ _ false).
Qed.

Lemma check_scripts_result scripts all_good s :
  check_scripts path_exists scripts all_good s
    = (all_good && forallb (path_exists (world s)) scripts, s).
Proof.
  revert all_good. induction scripts as [|script rest IH]; intros all_good.
  - simpl. by rewrite andb_true_r.
  - simpl. unfold bind, exists_. rewrite IH.
    by destruct (path_exists (world s) script), all_good.
Qed.

Lemma check_prerequisites_result s :
  check_prerequisites path_exists s
    = (path_exists (world s) ".env"
         && forallb (path_exists (world s)) required_scripts, s).
Proof.
  unfold check_prerequisites, bind, exists_. rewrite check_scripts_result.
  by destruct (path_exists (world s) ".env").
Qed.

(** The full run: the stages it went through, then the validation when
    all of them succeeded. *)
Lemma main_full_shape sd s :
  ∃ b l st,
    stage (planned_scripts {| skip_download := sd; validate_only := false |}) b l ∧
    trace st = trace s ++ ran l ∧
    main subprocess_run path_exists read_csv_len
         {| skip_download := sd; validate_only := false |} s
      = (if b then 0%Z else 1%Z,
         if b then (run_validation path_exists read_csv_len st).2 else st).
Proof.
  unfold main, bind. rewrite check_prerequisites_result.
  cbn [validate_only skip_download].
  set (stage1 := if negb sd then _ else _).
  assert (∃ l, trace (stage1 s).2 = trace s ++ ran l ∧
               stage (if sd then [] else extraction_steps.*1) (stage1 s).1 l)
    as (l1 & Ht1 & H1).
  { subst stage1. destruct sd; cbn [negb].
    - exists []. simpl. rewrite app_nil_r. split; [done|apply stage_nil].
    - destruct (run_steps_stage extraction_steps s) as (l & Ht & Hl).
      exists l. unfold run_data_extraction.
      destruct (run_steps _ _ _) as [[|] s1]; by split. }
  destruct (stage_guarded (run_data_integration subprocess_run) _
              ["integrate_economic_data.py"] (stage1 s) s l1 Ht1 H1
              (λ s', run_script_stage' _ _ s')) as (l2 & Ht2 & H2).
  destruct (stage1 s) as [b1 s1]. cbn [fst snd] in Ht2, H2. unfold bind in Ht2, H2.
  clear stage1 Ht1 H1.
  match type of Ht2 with trace (?r).2 = _ => set (r2 := r) in * end.
  destruct (stage_guarded (run_dashboard_generation subprocess_run) _
              ["Baltimore_MetricsWithMap.py"] r2 s l2 Ht2 H2
              (λ s', run_script_stage' _ _ s')) as (l3 & Ht3 & H3).
  destruct r2 as [b2 s2]. cbn [fst snd] in Ht3, H3. unfold bind in Ht3, H3.
  clear Ht2 H2.
  match type of Ht3 with trace (?r).2 = _ => set (r3 := r) in * end.
  destruct r3 as [b3 s3]. cbn [fst snd] in Ht3, H3.
  exists b3, l3, s3. split_and!.
  - unfold planned_scripts. cbn [validate_only skip_download].
    by rewrite <-(assoc_L (++)) in H3.
  - done.
  - destruct b3; cbv beta iota; [|done].
    by destruct (run_validation _ _ s3).
Qed.

Lemma main_validate_only sd s :
  main subprocess_run path_exists read_csv_len
       {| skip_download := sd; validate_only := true |} s
    = (if (run_validation path_exists read_csv_len s).1 then 0%Z else 1%Z,
       (run_validation path_exists read_csv_len s).2).
Proof.
  unfold main, bind. rewrite check_prerequisites_result.
  cbn [validate_only]. by destruct (run_validation _ _ s).
Qed.

Lemma run_validation_result s :
  ∃ passed,
    run_validation path_exists read_csv_len s
      = ((passed =? 5)%nat,
         {| world := world s; trace := trace s ++ [Validated passed 5] |}) ∧
    passed ≤ 5 ∧
    (passed = 5 ↔
       path_exists (world s) health_file = true ∧
       path_exists (world s) econ_file = true ∧
       path_exists (world s) integrated_file = true ∧
       path_exists (world s) dashboard_file = true ∧
       read_csv_len (world s) integrated_file = Some 199).
Proof.
  unfold run_validation, check_file, check_completeness, emit, exists_, ret, bind.
  cbv beta iota. cbn [world fst snd].
  destruct (path_exists (world s) health_file),
    (path_exists (world s) econ_file),
    (path_exists (world s) integrated_file),
    (path_exists (world s) dashboard_file);
    destruct (read_csv_len (world s) integrated_file) as [n|];
    try destruct (Nat.eqb_spec n 199) as [->|Hn];
    cbn [fst snd Nat.add]; eexists; (split; [reflexivity|]); (split; [lia|]);
    (split; [ intros H; first [lia | by repeat split]
            | intros (? & ? & ? & ? & E); first [lia | congruence] ]).
Qed.

End driver_steps.

Section driver_properties.
Import Pipeline.
Context {World : Type}.
Context (subprocess_run : World → string → nat → Outcome * World).
Context (path_exists : World → string → bool).
Context (read_csv_len : World → string → option nat).

Abbreviation main' := (main subprocess_run path_exists read_csv_len).
Abbreviation run_validation' := (run_validation path_exists read_csv_len).
Implicit Types (s : @State World) (l : list (string * Outcome)).

Lemma stage_failed_not_all plan l :
  stage plan false l → ¬ Forall (λ p, succeeded p.2 = true) l.
Proof.
  intros [_ (l0 & p & -> & _ & Hp)] [_ Hl]%Forall_app.
  apply Forall_inv in Hl. simpl in Hl. congruence.
Qed.

Lemma stage_true_iff plan b l :
  stage plan b l → (b = true ↔ l.*1 = plan ∧ Forall (λ p, succeeded p.2 = true) l).
Proof.
  intros Hs. destruct b.
  - by destruct Hs as [_ ?].
  - split; [done|]. intros [_ Hl]. by destruct (stage_failed_not_all _ _ Hs).
Qed.

(** X1.  The prerequisite check reports success exactly when [.env] and
    the four required scripts exist, and it changes nothing: no script is
    run and the world and trace are as before. *)
Theorem check_prerequisites_spec s :
  (check_prerequisites path_exists s).2 = s ∧
  ((check_prerequisites path_exists s).1 = true
   ↔ path_exists (world s) ".env" = true ∧
     ∀ script, script ∈ required_scripts → path_exists (world s) script = true).
Proof.
  rewrite check_prerequisites_result. split; [done|]. cbn [fst].
  rewrite andb_true_iff, forallb_forall.
  by setoid_rewrite <-list_elem_of_In.
Qed.

(** X2.  The validation leaves the world as it is and adds exactly one
    report [Validated passed 5] with [passed <= 5]; it returns [True]
    exactly when [passed = 5], that is when the four output files exist
    and the integrated table is read and has 199 rows. *)
Theorem run_validation_spec s :
  ∃ passed,
    world (run_validation' s).2 = world s ∧
    trace (run_validation' s).2 = trace s ++ [Validated passed 5] ∧
    passed ≤ 5 ∧
    ((run_validation' s).1 = true ↔ passed = 5) ∧
    ((run_validation' s).1 = true
     ↔ path_exists (world s) health_file = true ∧
       path_exists (world s) econ_file = true ∧
       path_exists (world s) integrated_file = true ∧
       path_exists (world s) dashboard_file = true ∧
       read_csv_len (world s) integrated_file = Some 199).
Proof.
  destruct (run_validation_result path_exists read_csv_len s)
    as (passed & -> & Hle & Hiff).
  exists passed. cbn [fst snd world trace]. split_and!; try done.
  - apply Nat.eqb_eq.
  - by rewrite Nat.eqb_eq.
Qed.

(** X3.  A step loop runs a prefix of its scripts, in order: it returns
    [True] exactly when it ran all of them and every one succeeded, and
    [False] exactly when the last script it ran is the first that did not
    succeed. *)
Theorem run_steps_spec steps s :
  ∃ l,
    trace (run_steps subprocess_run steps s).2 = trace s ++ ran l ∧
    l.*1 `prefix_of` steps.*1 ∧
    ((run_steps subprocess_run steps s).1 = true
     ↔ l.*1 = steps.*1 ∧ Forall (λ p, succeeded p.2 = true) l) ∧
    ((run_steps subprocess_run steps s).1 = false
     ↔ ∃ l0 p, l = l0 ++ [p] ∧ Forall (λ p, succeeded p.2 = true) l0 ∧
               succeeded p.2 = false).
Proof.
  destruct (run_steps_stage subprocess_run steps s) as (l & Ht & Hs).
  exists l. split_and!; [done|by destruct Hs|by apply stage_true_iff|].
  destruct (run_steps _ _ _).1 eqn:Hb.
  - split; [done|]. intros (l0 & p & -> & _ & Hp).
    destruct Hs as [_ [_ [_ Hl]%Forall_app]].
    apply Forall_inv in Hl. simpl in Hl. congruence.
  - split; [|done]. intros _. by destruct Hs as [_ ?].
Qed.

(** X4.  Whatever the flags and the environment, the scripts a run
    attempts are a prefix of its plan (extraction unless skipped, then
    integration, then generation), in that order; a validation-only run
    attempts no script, and a run that skips the download never attempts
    an extraction script. *)
Theorem main_follows_plan (args : Args) s :
  ∃ new,
    trace (main' args s).2 = trace s ++ new ∧
    scripts_run new `prefix_of` planned_scripts args ∧
    (validate_only args = true → scripts_run new = []) ∧
    (skip_download args = true →
     ∀ script, script ∈ extraction_steps.*1 → script ∉ scripts_run new).
Proof.
  destruct args as [sd [|]].
  - rewrite main_validate_only.
    destruct (run_validation_result path_exists read_csv_len s)
      as (passed & -> & _).
    exists [Validated passed 5]. split_and!; [done..|].
    intros _ script _. apply not_elem_of_nil.
  - destruct (main_full_shape subprocess_run path_exists read_csv_len sd s)
      as (b & l & st & Hs & Ht & ->).
    assert (∃ vs, trace (if b then (run_validation' st).2 else st)
                    = trace s ++ ran l ++ vs ∧ scripts_run vs = []) as (vs & Hv & Hvs).
    { destruct b.
      - destruct (run_validation_result path_exists read_csv_len st)
          as (passed & -> & _).
        exists [Validated passed 5]. cbn [snd trace].
        by rewrite Ht, (assoc_L (++)).
      - exists []. by rewrite app_nil_r. }
    exists (ran l ++ vs). cbn [snd].
    assert (scripts_run (ran l ++ vs) = l.*1) as ->.
    { unfold scripts_run in *. by rewrite omap_app, Hvs, app_nil_r, scripts_run_ran. }
    split_and!; [done|by destruct Hs|done|].
    cbn [skip_download]. intros -> script Hin Hrun.
    destruct Hs as [[k Hk] _]. unfold planned_scripts in Hk. cbn in Hk, Hin.
    assert (script ∈ ["integrate_economic_data.py"; "Baltimore_MetricsWithMap.py"])
      as Hplan by (rewrite Hk; apply elem_of_app; by left).
    clear Hk Hrun.
    repeat (apply elem_of_cons in Hin as [->|Hin]);
      [..|by apply elem_of_nil in Hin];
      repeat (apply elem_of_cons in Hplan as [?|Hplan]; [discriminate|]);
      by apply elem_of_nil in Hplan.
Qed.

Lemma main_summary (args : Args) s :
  ∃ b l vs,
    trace (main' args s).2 = trace s ++ ran l ++ vs ∧
    stage (planned_scripts args) b l ∧
    if validate_only args then
      l = [] ∧
      ∃ passed, vs = [Validated passed 5] ∧
                (run_validation' s).1 = (passed =? 5)%nat ∧
                (main' args s).1 = (if (passed =? 5)%nat then 0%Z else 1%Z)
    else
      (main' args s).1 = (if b then 0%Z else 1%Z) ∧
      if b then ∃ passed, vs = [Validated passed 5] else vs = [].
Proof.
  destruct args as [sd [|]]; cbn [validate_only].
  - rewrite main_validate_only.
    destruct (run_validation_result path_exists read_csv_len s)
      as (passed & -> & _).
    exists true, [], [Validated passed 5]. split_and!; [done|apply stage_nil|done|].
    by exists passed.
  - destruct (main_full_shape subprocess_run path_exists read_csv_len sd s)
      as (b & l & st & Hs & Ht & ->).
    destruct b.
    + destruct (run_validation_result path_exists read_csv_len st)
        as (passed & -> & _).
      exists true, l, [Validated passed 5]. cbn [fst snd trace].
      split_and!; [by rewrite Ht, (assoc_L (++))|done..|by exists passed].
    + exists false, l, []. cbn [fst snd]. by rewrite app_nil_r.
Qed.

Lemma all_succeeded_ran_validated l vs :
  scripts_run vs = [] →
  all_succeeded (ran l ++ vs) ↔ Forall (λ p, succeeded p.2 = true) l.
Proof.
  intros Hvs. rewrite <-all_succeeded_ran. unfold all_succeeded. split.
  - intros H script o Hin. apply (H script), elem_of_app. by left.
  - intros H script o [Hin|Hin]%elem_of_app; [by apply (H script)|].
    assert (script ∈ scripts_run vs) as Hs; [|rewrite Hvs in Hs; by apply elem_of_nil in Hs].
    unfold scripts_run. apply list_elem_of_omap. by exists (Ran script o).
Qed.

(** X5.  The exit status is 0 or 1.  Without [--validate-only] it is 0
    exactly when every planned script was run and succeeded, whatever
    the validation reports; with [--validate-only] it is 0 exactly when
    the validation returns [True]. *)
Theorem main_exit_status (args : Args) s :
  ∃ new,
    trace (main' args s).2 = trace s ++ new ∧
    ((main' args s).1 = 0%Z ∨ (main' args s).1 = 1%Z) ∧
    (validate_only args = false →
     ((main' args s).1 = 0%Z
      ↔ scripts_run new = planned_scripts args ∧ all_succeeded new)) ∧
    (validate_only args = true →
     ((main' args s).1 = 0%Z ↔ (run_validation' s).1 = true)).
Proof.
  destruct (main_summary args s) as (b & l & vs & Ht & Hs & H).
  exists (ran l ++ vs). split; [done|].
  destruct (validate_only args).
  - destruct H as (-> & passed & -> & -> & ->).
    destruct (passed =? 5)%nat; split_and!; auto; try done.
  - destruct H as [-> Hvs].
    assert (scripts_run vs = []) as Hnil.
    { destruct b; [by destruct Hvs as [passed ->]|by subst]. }
    split_and!; [destruct b; auto| |done].
    intros _. rewrite (all_succeeded_ran_validated _ _ Hnil).
    unfold scripts_run in *. rewrite omap_app, Hnil, app_nil_r.
    fold (scripts_run (ran l)). rewrite scripts_run_ran.
    rewrite <-(stage_true_iff _ _ _ Hs). by destruct b.
Qed.

(** X6.  A run validates at most once, and then as its last event.
    Without [--validate-only] the validation is skipped exactly when the
    exit status is 1, that is exactly when some script did not succeed;
    with [--validate-only] the validation is the only event. *)
Theorem main_validates_last (args : Args) s :
  ∃ new,
    trace (main' args s).2 = trace s ++ new ∧
    (validations new = [] ∨
     ∃ pre passed, new = pre ++ [Validated passed 5] ∧ validations pre = []) ∧
    (validate_only args = false →
     (validations new = [] ↔ (main' args s).1 = 1%Z) ∧
     (validations new = [] ↔ ¬ all_succeeded new)) ∧
    (validate_only args = true → ∃ passed, new = [Validated passed 5]).
Proof.
  destruct (main_summary args s) as (b & l & vs & Ht & Hs & H).
  exists (ran l ++ vs). split; [done|].
  assert (validations (ran l ++ vs) = validations vs) as Hval.
  { unfold validations. rewrite omap_app. fold (validations (ran l)).
    by rewrite validations_ran. }
  rewrite Hval.
  destruct (validate_only args).
  - destruct H as (-> & passed & -> & _ & _). split_and!; [|done|by exists passed].
    right. by exists [], passed.
  - destruct H as [-> Hvs]. destruct b.
    + destruct Hvs as [passed ->]. split_and!; [| |done].
      * right. exists (ran l), passed. split; [done|apply validations_ran].
      * intros _. split; (split; [done|]); [done|].
        intros Hn. exfalso. apply Hn.
        apply all_succeeded_ran_validated; [done|]. by destruct Hs as [_ [_ ?]].
    + subst vs. split_and!; [by left| |done].
      intros _. split; (split; [|done]); [done|].
      intros _. rewrite all_succeeded_ran_validated by done.
      by apply (stage_failed_not_all _ _ Hs).
Qed.

End driver_properties.

(** ** The comparison, further *)

Section comparison_further.
Import Dashboard.
Local Open Scope Qc_scope.
Implicit Types (df : DataFrame) (td : Tract) (key : string) (v c : Qc).

(** X8.  The progress-bar value of a metric line is a number that never
    exceeds 1; it is not negative when the tract's value is not
    negative, and for a percentage of at most 100 it is the value
    divided by 100. *)
Theorem progress_bounds (value : Qc) (unit : string) :
  ∃ p, progress (Some value) unit = Ok (Some p) ∧
       p ≤ 1 ∧
       (0 ≤ value → 0 ≤ p) ∧
       (unit = "%" → value ≤ qz 100 → p = value / qz 100).
Proof.
  unfold progress. case_decide as Hu.
  - rewrite div_nonzero by (by intros [=]). simpl. unfold F.min, F.gt.
    case_bool_decide as Hgt.
    + exists 1. split_and!; try done.
      intros _ Hle. exfalso. apply (Qclt_not_le _ _ Hgt).
      apply Qcmult_lt_0_le_reg_r with (qz 100); [apply hundred_positive|].
      by rewrite times_hundred, Qcmult_1_l.
    + exists (value / qz 100). split_and!; try done.
      * by apply Qcnot_lt_le.
      * intros Hv. apply Qcmult_lt_0_le_reg_r with (qz 100); [apply hundred_positive|].
        by rewrite times_hundred, Qcmult_0_l.
  - exists (Q2Qc 0.5). split_and!; try done.
Qed.

End comparison_further.

(** ** Strength, further *)

Section strength_further.
Import Dashboard.
Local Open Scope Qc_scope.

Lemma Qc_abs_opp (r : Qc) : F.Qc_abs (- r) = F.Qc_abs r.
Proof.
  unfold F.Qc_abs. destruct (decide (0 ≤ r)) as [Hr|Hr], (decide (0 ≤ - r)) as [Hn|Hn].
  - apply (Qcopp_le_compat 0 r) in Hr.
    replace (- 0) with (Q2Qc 0) in Hr by ring.
    assert (- r = 0) as Hz by by apply (anti_symm Qcle).
    rewrite Hz. rewrite <-(Qcopp_involutive r), Hz. ring.
  - apply Qcopp_involutive.
  - done.
  - exfalso. apply Hn. apply Qcnot_le_lt, Qclt_le_weak in Hr.
    apply (Qcopp_le_compat r 0) in Hr.
    by replace (- 0) with (Q2Qc 0) in Hr by ring.
Qed.

(** X9.  The strength shown depends on the magnitude of the coefficient
    only: [r] and [-r] are classified alike.  An undefined (NaN)
    coefficient is shown as Weak. *)
Theorem strength_ignores_sign (r : Qc) :
  strength (Some (- r)) = strength (Some r) ∧ strength NaN = Weak.
Proof. split; [|done]. unfold strength, F.abs. simpl. by rewrite Qc_abs_opp. Qed.

End strength_further.

(** ** Tract labels and selection *)

Section labels.
Import Dashboard.

Lemma chars_app (a b : string) : chars (a +:+ b) = chars a ++ chars b.
Proof. induction a as [|c a IH]; [done|]. simpl. by rewrite IH. Qed.

Lemma chars_inj (a b : string) : chars a = chars b → a = b.
Proof.
  revert b. induction a as [|c a IH]; intros [|d b]; simpl; try done.
  intros [= -> H]. f_equal. by apply IH.
Qed.

Lemma chars_length (a : string) : length (chars a) = String.length a.
Proof. induction a as [|c a IH]; [done|]. simpl. by rewrite IH. Qed.

Lemma chars_zeros (n : nat) :
  chars (String.concat "" (replicate n "0")) = replicate n "0"%char.
Proof.
  induction n as [|n IH]; [done|]. cbn [replicate].
  destruct n as [|n]; [done|].
  change (String.concat "" ("0" :: replicate (S n) "0"))
    with ("0" +:+ "" +:+ String.concat "" (replicate (S n) "0")).
  rewrite !chars_app, IH. done.
Qed.

(** Without a leading sign, [zfill] only puts zeros in front. *)
Lemma chars_zfill (width : nat) (s : string) :
  (∀ c rest, s = String c rest → Str.is_sign c = false) →
  chars (Str.zfill width s)
    = replicate (width - String.length s) "0"%char ++ chars s.
Proof.
  intros Hs. unfold Str.zfill. destruct s as [|c rest].
  - by rewrite chars_zeros, app_nil_r.
  - rewrite (Hs c rest eq_refl). by rewrite chars_app, chars_zeros.
Qed.

Lemma pretty_N_char_unsigned (x : N) : Str.is_sign (pretty_N_char x) = false.
Proof. unfold pretty_N_char. by repeat case_match. Qed.

(** A numeral of a positive number starts with a digit other than 0. *)
Lemma pretty_N_go_head (x : N) (s : string) :
  (0 < x)%N →
  ∃ c rest, pretty_N_go x s = String c rest ∧ c ≠ "0"%char ∧ Str.is_sign c = false.
Proof.
  revert s. induction (N.lt_wf_0 x) as [x _ IH]; intros s Hx.
  rewrite pretty_N_go_step by done.
  destruct (decide (x < 10)%N) as [Hlt|Hge].
  - rewrite N.div_small, pretty_N_go_0, N.mod_small by done.
    eexists _, _. split; [done|]. split; [|apply pretty_N_char_unsigned]. intros Hc.
    assert (x = 0%N) as Hzero by (apply pretty_N_char_inj; [done|lia|exact Hc]).
    lia.
  - apply IH; [by apply N.div_lt|]. apply N.div_str_pos. lia.
Qed.

Lemma pretty_N_unsigned (n : N) (c : ascii) (rest : string) :
  pretty n = String c rest → Str.is_sign c = false.
Proof.
  unfold pretty, pretty_N. case_decide as Hn.
  - by intros [= <- _].
  - destruct (pretty_N_go_head n "") as (c' & rest' & -> & _ & Hc); [lia|].
    by intros [= <- _].
Qed.

(** The digits of a code once the padding is gone. *)
Lemma significant_digits (n : N) :
  ∃ k ds, chars (tract_str {| tract := n; vals := ∅ |}) = replicate k "0"%char ++ ds ∧
          (n = 0%N → ds = []) ∧
          (n ≠ 0%N → ds = chars (pretty n) ∧ ∃ c rest, ds = c :: rest ∧ c ≠ "0"%char).
Proof.
  unfold tract_str. cbn [tract]. rewrite chars_zfill by apply pretty_N_unsigned.
  destruct (decide (n = 0%N)) as [->|Hn].
  - exists 6, []. by split_and!.
  - eexists _, _. split; [done|]. split; [done|]. intros _. split; [done|].
    unfold pretty, pretty_N. rewrite decide_False by done.
    destruct (pretty_N_go_head n "") as (c & rest & -> & Hc & _); [lia|].
    by exists c, (chars rest).
Qed.

Lemma padded_inj (k1 k2 : nat) (d1 d2 : list ascii) :
  (d1 = [] ∨ ∃ c rest, d1 = c :: rest ∧ c ≠ "0"%char) →
  (d2 = [] ∨ ∃ c rest, d2 = c :: rest ∧ c ≠ "0"%char) →
  replicate k1 "0"%char ++ d1 = replicate k2 "0"%char ++ d2 → d1 = d2.
Proof.
  intros H1 H2. revert k2. induction k1 as [|k1 IH]; intros [|k2]; simpl.
  - done.
  - intros ->. destruct H1 as [|(c & rest & [= <- _] & Hc)]; done.
  - intros <-. destruct H2 as [|(c & rest & [= <- _] & Hc)]; done.
  - intros [= H]. by apply (IH k2).
Qed.

Lemma tract_str_code (r : Tract) :
  tract_str r = tract_str {| tract := tract r; vals := ∅ |}.
Proof. done. Qed.

Lemma tract_display_inj (r1 r2 : Tract) :
  tract_display r1 = tract_display r2 → tract r1 = tract r2.
Proof.
  unfold tract_display. intros H. cbn [String.app] in H. injection H as H.
  apply (f_equal chars) in H.
  rewrite (tract_str_code r1), (tract_str_code r2) in H.
  change ("" +:+ ?x) with x in H.
  destruct (significant_digits (tract r1)) as (k1 & d1 & E1 & Z1 & N1).
  destruct (significant_digits (tract r2)) as (k2 & d2 & E2 & Z2 & N2).
  rewrite E1, E2 in H. apply padded_inj in H.
  - destruct (decide (tract r1 = 0%N)) as [H1|H1], (decide (tract r2 = 0%N)) as [H2|H2].
    + congruence.
    + destruct (N2 H2) as (_ & c & rest & ? & _). rewrite (Z1 H1) in H. congruence.
    + destruct (N1 H1) as (_ & c & rest & ? & _). rewrite (Z2 H2) in H. congruence.
    + destruct (N1 H1) as [-> _], (N2 H2) as [-> _].
      by apply chars_inj, (inj pretty) in H.
  - destruct (decide (tract r1 = 0%N)) as [H1|H1]; [left; auto|right].
    by destruct (N1 H1) as [_ ?].
  - destruct (decide (tract r2 = 0%N)) as [H2|H2]; [left; auto|right].
    by destruct (N2 H2) as [_ ?].
Qed.

End labels.

Section selection.
Import Dashboard.

Lemma filter_first {A} (P : A → Prop) `{!∀ x, Decision (P x)} (l : list A) :
  match filter P l with
  | [] => Forall (λ x, ¬ P x) l
  | r :: _ => ∃ pre post, l = pre ++ r :: post ∧ P r ∧ Forall (λ x, ¬ P x) pre
  end.
Proof.
  induction l as [|x l IH]; [by constructor|].
  destruct (decide (P x)) as [Hx|Hx].
  - rewrite filter_cons_True by done. by exists [], l.
  - rewrite filter_cons_False by done. destruct (filter P l) as [|r rest].
    + by constructor.
    + destruct IH as (pre & post & -> & Hr & Hpre).
      exists (x :: pre), post. split_and!; [done..|by constructor].
Qed.

Lemma first_unique {A} (P : A → Prop) (l pre pre' post post' : list A) (r r' : A) :
  l = pre ++ r :: post → P r → Forall (λ x, ¬ P x) pre →
  l = pre' ++ r' :: post' → P r' → Forall (λ x, ¬ P x) pre' →
  r = r'.
Proof.
  intros -> Hr Hpre. revert pre' Hpre.
  induction pre as [|x pre IH]; intros [|x' pre'] Hpre; simpl.
  - by intros [= -> _].
  - intros [= -> _] _ [Hx _]%Forall_cons. done.
  - intros [= <- _] Hr' _. apply Forall_cons in Hpre as [Hx _]. done.
  - intros [= <- H] Hr' [_ Hpre']%Forall_cons.
    apply Forall_cons in Hpre as [_ Hpre]. by apply (IH pre').
Qed.

Lemma select_tract_cases (df : DataFrame) (selected_tract : string) :
  (select_tract df selected_tract = Raise IndexError ∧
   ∀ r, r ∈ rows df → tract_display r ≠ selected_tract) ∨
  (∃ td, select_tract df selected_tract = Ok td ∧ td ∈ rows df ∧
         tract_display td = selected_tract).
Proof.
  unfold select_tract.
  pose proof (filter_first (λ r, tract_display r = selected_tract) (rows df)) as H.
  destruct (filter _ (rows df)) as [|r0 rest].
  - left. split; [done|]. by apply Forall_forall.
  - right. destruct H as (pre & post & E & Hr & _). exists r0. split_and!; [done| |done].
    rewrite E. apply elem_of_app. right. by left.
Qed.

(** X11.  The tract lookup returns the first row, in table order, whose
    display label equals the selection; it raises [IndexError] exactly
    when no row has that label, and raises nothing else. *)
Theorem select_tract_first_match (df : DataFrame) (selected_tract : string) :
  (select_tract df selected_tract = Raise IndexError
   ↔ ∀ r, r ∈ rows df → tract_display r ≠ selected_tract) ∧
  (∀ r, select_tract df selected_tract = Ok r
        ↔ ∃ pre post, rows df = pre ++ r :: post ∧
                      tract_display r = selected_tract ∧
                      ∀ r', r' ∈ pre → tract_display r' ≠ selected_tract) ∧
  (∀ e, select_tract df selected_tract = Raise e → e = IndexError).
Proof.
  unfold select_tract.
  pose proof (filter_first (λ r, tract_display r = selected_tract) (rows df)) as H.
  destruct (filter _ (rows df)) as [|r0 rest].
  - rewrite Forall_forall in H. split_and!.
    + done.
    + intros r. split; [done|]. intros (pre & post & E & Hr & _).
      destruct (H r); [|done]. rewrite E. apply elem_of_app. right. by left.
    + by intros e [= <-].
  - destruct H as (pre & post & E & Hr & Hpre). split_and!.
    + split; [done|]. intros Hn. destruct (Hn r0); [|done].
      rewrite E. apply elem_of_app. right. by left.
    + intros r. split.
      * intros [= <-]. exists pre, post. by rewrite Forall_forall in Hpre.
      * intros (pre' & post' & E' & Hr' & Hpre'). f_equal.
        apply (first_unique (λ r, tract_display r = selected_tract)
                 (rows df) pre pre' post post'); try done.
        by apply Forall_forall.
    + done.
Qed.

(** X12.  When the tract codes of the table are pairwise distinct,
    selecting the display label of a row of the table returns that very
    row: the zero-padded label identifies the tract. *)
Theorem selection_round_trip (df : DataFrame) (r : Tract) :
  NoDup (tract <$> rows df) →
  r ∈ rows df →
  select_tract df (tract_display r) = Ok r.
Proof.
  intros Hnd Hin. unfold select_tract.
  pose proof (filter_first (λ r', tract_display r' = tract_display r) (rows df)) as H.
  destruct (filter _ (rows df)) as [|r0 rest].
  - rewrite Forall_forall in H. by destruct (H r Hin).
  - destruct H as (pre & post & E & Hr & _). f_equal.
    apply tract_display_inj in Hr.
    apply list_elem_of_lookup in Hin as [i Hi].
    assert (rows df !! length pre = Some r0) as Hj.
    { rewrite E. by rewrite list_lookup_middle. }
    assert (length pre = i) as <-.
    { apply (NoDup_lookup _ _ _ (tract r0) Hnd); rewrite list_lookup_fmap.
      - by rewrite Hj.
      - rewrite Hi. simpl. by rewrite Hr. }
    congruence.
Qed.

End selection.

Lemma selection_round_trip_witness :
  Dashboard.select_tract three_tracts (Dashboard.tract_display tract30) = Ok tract30.
Proof.
  apply selection_round_trip.
  - vm_compute. repeat constructor; intros H;
      repeat (apply elem_of_cons in H as [H|H]; [discriminate|]);
      by apply elem_of_nil in H.
  - do 2 apply list_elem_of_further. apply list_elem_of_here.
Defined.

(** ** Statistics at the edges and in order *)

Section statistics_further.
Import Dashboard.
Local Open Scope Qc_scope.
Context (sqrt : Qc → Qc).
Implicit Types (v : list Qc) (s : Series.t) (df : DataFrame).

Lemma aggregate_of_valid df indicator :
  indicator ∈ columns df →
  aggregate sqrt df indicator
    = Ok (Series.min (Series.dropna (DF.column df indicator)),
          Series.median (Series.dropna (DF.column df indicator)),
          Series.max (Series.dropna (DF.column df indicator)),
          Series.std sqrt (Series.dropna (DF.column df indicator)),
          Series.mean (DF.column df indicator)).
Proof.
  intros Hk. unfold aggregate, statistics. by rewrite !getitem_column.
Qed.

(** X14.  For a column with exactly one non-missing value [x], min,
    median, max and mean are [x] and the standard deviation is NaN. *)
Theorem aggregate_single_value df indicator (x : Qc) :
  indicator ∈ columns df →
  Series.valid (DF.column df indicator) = [x] →
  aggregate sqrt df indicator = Ok (Some x, Some x, Some x, NaN, Some x).
Proof.
  intros Hk Hv. rewrite aggregate_of_valid by done.
  unfold Series.min, Series.median, Series.max, Series.std, Series.var, Series.mean.
  rewrite valid_dropna, Hv. simpl. rewrite count_one.
  do 2 f_equal. f_equal. by field.
Qed.

(** X15.  For a column with at least one non-missing value, min and max
    are values of the column, and every non-missing value of the column
    lies between them. *)
Theorem aggregate_extremes df indicator :
  indicator ∈ columns df →
  Series.valid (DF.column df indicator) ≠ [] →
  ∃ mn md mx sd m,
    aggregate sqrt df indicator = Ok (Some mn, md, Some mx, sd, m) ∧
    mn ∈ Series.valid (DF.column df indicator) ∧
    mx ∈ Series.valid (DF.column df indicator) ∧
    ∀ y, y ∈ Series.valid (DF.column df indicator) → mn ≤ y ∧ y ≤ mx.
Proof.
  intros Hk Hv. rewrite aggregate_of_valid by done.
  unfold Series.min, Series.max. rewrite valid_dropna.
  destruct (Series.valid (DF.column df indicator)) as [|x v] eqn:E; [done|].
  destruct (foldl_min_least x v) as [Hmin Hle].
  destruct (foldl_max_greatest x v) as [Hmax Hge].
  eexists _, _, _, _, _. split_and!; [done..|]. intros y Hy. auto.
Qed.

End statistics_further.

Lemma aggregate_single_value_witness :
  Dashboard.aggregate Qc_sqrt one_tract "uninsured_rate"
    = Ok (Some (qz 7), Some (qz 7), Some (qz 7), NaN, Some (qz 7)).
Proof.
  apply aggregate_single_value.
  - apply list_elem_of_further, list_elem_of_here.
  - reflexivity.
Defined.

Lemma aggregate_extremes_witness :
  ∃ mn md mx sd m,
    Dashboard.aggregate Qc_sqrt three_tracts_permuted "poverty_rate"
      = Ok (Some mn, md, Some mx, sd, m) ∧
    mn ∈ Series.valid (DF.column three_tracts_permuted "poverty_rate") ∧
    mx ∈ Series.valid (DF.column three_tracts_permuted "poverty_rate") ∧
    ∀ y, y ∈ Series.valid (DF.column three_tracts_permuted "poverty_rate") →
         (mn ≤ y)%Qc ∧ (y ≤ mx)%Qc.
Proof.
  apply aggregate_extremes.
  - apply list_elem_of_here.
  - discriminate.
Defined.

(** ** The metric lines *)

Section metric_lines.
Import Dashboard.
Local Open Scope Qc_scope.
Implicit Types (df : DataFrame) (td : Tract) (key : string).

(** X16.  The metrics loop shows one line per metric whose key is a
    column and whose tract value is present, in the order of the list:
    each line carries that metric's label and unit, the tract's value,
    the percent delta against the column mean and the progress value.
    The loop completes when none of these values is a negative
    percentage; what can stop it is [st.progress] refusing the progress
    value of a negative percentage, and nothing else. *)
Theorem show_metrics_lines df td metrics :
  (∀ lines, show_metrics df td metrics = Ok lines →
     Forall2 (shows df td) (kept_metrics df td metrics) lines) ∧
  ((∀ m, m ∈ kept_metrics df td metrics → ¬ negative_percentage td m) →
   is_Ok (show_metrics df td metrics)) ∧
  (∀ e, show_metrics df td metrics = Raise e →
     e = StreamlitAPIException ∧
     ∃ m, m ∈ kept_metrics df td metrics ∧ negative_percentage td m) ∧
  kept_metrics df td metrics `sublist_of` metrics ∧
  (∀ m, m ∈ kept_metrics df td metrics
        ↔ m ∈ metrics ∧ m.1.1 ∈ columns df ∧ is_Some (vals td !! m.1.1)).
Proof.
  pose proof (show_metrics_spec df td metrics) as H.
  split_and!.
  - intros lines E. by rewrite E in H.
  - apply show_metrics_completes.
  - intros e E. by rewrite E in H.
  - apply sublist_filter.
  - intros m. unfold kept_metrics. rewrite list_elem_of_filter.
    rewrite Is_true_true, has_value_spec. tauto.
Qed.

End metric_lines.

(** ** When a view renders *)

Ltac result_simpl := cbn [mbind result_bind fmap result_fmap mret result_ret].

Section views.
Import Dashboard.
Local Open Scope Qc_scope.
Context (sqrt : Qc → Qc).
Implicit Types (df : DataFrame) (td : Tract) (key : string).

Lemma getitem_missing df key :
  key ∉ columns df → DF.getitem df key = Raise (KeyError key).
Proof. intros Hk. unfold DF.getitem. by rewrite decide_False. Qed.

Lemma row_getitem_missing df td key :
  key ∉ columns df → DF.row_getitem df td key = Raise (KeyError key).
Proof. intros Hk. unfold DF.row_getitem. by rewrite decide_False. Qed.

Lemma is_Ok_Raise {A} (e : exn) : ¬ is_Ok (@Raise A e).
Proof. by intros [a ?]. Qed.

(** X19.  The indicator analysis renders exactly when both chosen
    columns exist.  Otherwise the scatter plot, which is drawn before
    the correlation is computed, raises [ValueError] for the first
    argument that does not name a column, x before y; the analysis never
    raises [KeyError]. *)
Theorem show_indicator_analysis_renders df x_var y_var :
  (is_Ok (show_indicator_analysis sqrt df x_var y_var)
   ↔ x_var ∈ columns df ∧ y_var ∈ columns df) ∧
  (x_var ∉ columns df →
   show_indicator_analysis sqrt df x_var y_var = Raise (ValueError x_var)) ∧
  (x_var ∈ columns df → y_var ∉ columns df →
   show_indicator_analysis sqrt df x_var y_var = Raise (ValueError y_var)) ∧
  (∀ key, show_indicator_analysis sqrt df x_var y_var ≠ Raise (KeyError key)).
Proof.
  unfold show_indicator_analysis, px_scatter, DF.corr.
  destruct (decide (x_var ∈ columns df)) as [Hx|Hx];
    [destruct (decide (y_var ∈ columns df)) as [Hy|Hy]|]; result_simpl.
  - rewrite (getitem_column df x_var), (getitem_column df y_var) by done. result_simpl.
    split_and!; try done. split; [done|]. intros _. by eexists.
  - split_and!; try done. split; [by intros ?%is_Ok_Raise|by intros [_ ?]].
  - split_and!; try done. split; [by intros ?%is_Ok_Raise|by intros [? _]].
Qed.

(** X20.  The city overview renders exactly when the poverty,
    unemployment and income columns and the chosen indicator column
    exist, on a table with any number of rows; it then reports the
    number of rows as the tract count, and the only exception it can
    raise is [KeyError] for a column the table does not have. *)
Theorem show_city_overview_renders df indicator :
  (is_Ok (show_city_overview sqrt df indicator)
   ↔ "poverty_rate" ∈ columns df ∧ "unemployment_rate" ∈ columns df ∧
     "median_household_income_econ" ∈ columns df ∧ indicator ∈ columns df) ∧
  (∀ page, show_city_overview sqrt df indicator = Ok page →
           census_tracts page = length (rows df)) ∧
  (∀ e, show_city_overview sqrt df indicator = Raise e →
        ∃ key, e = KeyError key ∧ key ∉ columns df).
Proof.
  unfold show_city_overview, statistics.
  destruct (decide ("poverty_rate" ∈ columns df)) as [H1|H1];
    [rewrite (getitem_column df "poverty_rate") by done
    |rewrite (getitem_missing df "poverty_rate") by done]; simpl.
  2:{ split_and!; [split; [by intros ?%is_Ok_Raise|by intros (? & _)]|done|].
      intros e [= <-]. by eexists. }
  destruct (decide ("unemployment_rate" ∈ columns df)) as [H2|H2];
    [rewrite (getitem_column df "unemployment_rate") by done
    |rewrite (getitem_missing df "unemployment_rate") by done]; simpl.
  2:{ split_and!; [split; [by intros ?%is_Ok_Raise|by intros (_ & ? & _)]|done|].
      intros e [= <-]. by eexists. }
  destruct (decide ("median_household_income_econ" ∈ columns df)) as [H3|H3];
    [rewrite (getitem_column df "median_household_income_econ") by done
    |rewrite (getitem_missing df "median_household_income_econ") by done]; simpl.
  2:{ split_and!; [split; [by intros ?%is_Ok_Raise|by intros (_ & _ & ? & _)]|done|].
      intros e [= <-]. by eexists. }
  destruct (decide (indicator ∈ columns df)) as [H4|H4];
    [rewrite (getitem_column df indicator) by done
    |rewrite (getitem_missing df indicator) by done]; simpl.
  2:{ split_and!; [split; [by intros ?%is_Ok_Raise|by intros (_ & _ & _ & ?)]|done|].
      intros e [= <-]. by eexists. }
  split_and!; [|by intros page [= <-]|done].
  split; [done|]. intros _. by eexists.
Qed.

(** The key indicator cards stop at the first column the table does not
    have. *)
Lemma first_missing_key df (pre pre' post post' : list string) (key key' : string) :
  key_indicator_keys = pre ++ key :: post →
  (∀ k, k ∈ pre → k ∈ columns df) → key ∉ columns df →
  key_indicator_keys = pre' ++ key' :: post' →
  (∀ k, k ∈ pre' → k ∈ columns df) → key' ∉ columns df →
  key = key'.
Proof.
  intros E Hpre Hkey E' Hpre' Hkey'.
  apply (first_unique (λ k, k ∉ columns df) key_indicator_keys pre pre' post post');
    try done; apply Forall_forall; intros k Hk Hn; apply Hn; auto.
Qed.

(** X21.  The neighborhood explorer, on a table with its tract column.
    It raises [IndexError] when no row has the selected display label.
    With such a row, it raises [KeyError] for the first of the four key
    indicator columns that the table does not have.  With such a row and
    the four columns, it renders when none of the values shown in the
    two metric lists is a negative percentage.  And whenever it renders,
    some row has the label and the four columns exist. *)
Theorem show_neighborhood_explorer_renders df selected_tract :
  ((∀ r, r ∈ rows df → tract_display r ≠ selected_tract) →
   show_neighborhood_explorer df selected_tract = Raise IndexError) ∧
  (∀ td pre key post,
     select_tract df selected_tract = Ok td →
     key_indicator_keys = pre ++ key :: post →
     (∀ k, k ∈ pre → k ∈ columns df) → key ∉ columns df →
     show_neighborhood_explorer df selected_tract = Raise (KeyError key)) ∧
  (∀ td,
     select_tract df selected_tract = Ok td →
     (∀ key, key ∈ key_indicator_keys → key ∈ columns df) →
     (∀ m, m ∈ kept_metrics df td (housing_economic_metrics ++ health_education_metrics) →
           ¬ negative_percentage td m) →
     is_Ok (show_neighborhood_explorer df selected_tract)) ∧
  (is_Ok (show_neighborhood_explorer df selected_tract) →
   (∃ r, r ∈ rows df ∧ tract_display r = selected_tract) ∧
   ∀ key, key ∈ key_indicator_keys → key ∈ columns df).
Proof.
  unfold show_neighborhood_explorer.
  destruct (select_tract_cases df selected_tract) as [[-> Hno]|(td & -> & Hin & Hd)];
    result_simpl.
  { split_and!; [done|done|done|by intros ?%is_Ok_Raise]. }
  assert (∀ pre key post,
            key_indicator_keys = pre ++ key :: post →
            (∀ k, k ∈ pre → k ∈ columns df) → key ∉ columns df →
            ∀ e : exn,
              (∀ td' pre' key' post',
                 Ok td = Ok td' → key_indicator_keys = pre' ++ key' :: post' →
                 (∀ k, k ∈ pre' → k ∈ columns df) → key' ∉ columns df →
                 e = KeyError key') →
              ((∀ r, r ∈ rows df → tract_display r ≠ selected_tract) →
               @Raise Neighborhood e = Raise IndexError) ∧
              (∀ td' pre' key' post',
                 Ok td = Ok td' → key_indicator_keys = pre' ++ key' :: post' →
                 (∀ k, k ∈ pre' → k ∈ columns df) → key' ∉ columns df →
                 @Raise Neighborhood e = Raise (KeyError key')) ∧
              (∀ td',
                 Ok td = Ok td' →
                 (∀ key, key ∈ key_indicator_keys → key ∈ columns df) →
                 (∀ m, m ∈ kept_metrics df td'
                             (housing_economic_metrics ++ health_education_metrics) →
                       ¬ negative_percentage td' m) →
                 is_Ok (@Raise Neighborhood e)) ∧
              (is_Ok (@Raise Neighborhood e) →
               (∃ r, r ∈ rows df ∧ tract_display r = selected_tract) ∧
               ∀ key, key ∈ key_indicator_keys → key ∈ columns df)) as Hstop.
  { intros pre key post E Hpre Hkey e He. split_and!.
    - intros Hno. by destruct (Hno td Hin).
    - intros td' pre' key' post' Htd E' Hpre' Hkey'. f_equal. eauto.
    - intros td' _ Hall. destruct Hkey. apply Hall. rewrite E.
      apply elem_of_app. right. left.
    - by intros ?%is_Ok_Raise. }
  assert (∀ pre key post,
            key_indicator_keys = pre ++ key :: post →
            (∀ k, k ∈ pre → k ∈ columns df) → key ∉ columns df →
            ∀ td' pre' key' post',
              Ok td = Ok td' → key_indicator_keys = pre' ++ key' :: post' →
              (∀ k, k ∈ pre' → k ∈ columns df) → key' ∉ columns df →
              KeyError key = KeyError key') as Hfirst.
  { intros pre key post E Hpre Hkey td' pre' key' post' _ E' Hpre' Hkey'. f_equal.
    by apply (first_missing_key df pre pre' post post'). }
  unfold col1_poverty.
  destruct (decide ("poverty_rate" ∈ columns df)) as [H1|H1];
    [rewrite (row_getitem_column df td "poverty_rate"),
       (getitem_column df "poverty_rate") by done
    |rewrite (row_getitem_missing df td "poverty_rate") by done]; result_simpl.
  2:{ apply (Hstop [] "poverty_rate" _ eq_refl); [by intros k ?%elem_of_nil|done|].
      apply (Hfirst [] "poverty_rate" _ eq_refl); [by intros k ?%elem_of_nil|done]. }
  unfold col2_unemployment.
  destruct (decide ("unemployment_rate" ∈ columns df)) as [H2|H2];
    [rewrite (row_getitem_column df td "unemployment_rate"),
       (getitem_column df "unemployment_rate") by done
    |rewrite (row_getitem_missing df td "unemployment_rate") by done]; result_simpl.
  2:{ assert (∀ k, k ∈ ["poverty_rate"] → k ∈ columns df) as Hpre
        by (by intros k ->%list_elem_of_singleton).
      apply (Hstop ["poverty_rate"] "unemployment_rate" _ eq_refl); [done..|].
      by apply (Hfirst ["poverty_rate"] "unemployment_rate" _ eq_refl). }
  unfold col3_income.
  destruct (decide ("median_household_income_econ" ∈ columns df)) as [H3|H3];
    [rewrite (row_getitem_column df td "median_household_income_econ"),
       (getitem_column df "median_household_income_econ") by done
    |rewrite (row_getitem_missing df td "median_household_income_econ") by done]; result_simpl.
  2:{ assert (∀ k, k ∈ ["poverty_rate"; "unemployment_rate"] → k ∈ columns df) as Hpre.
      { intros k Hk. repeat (apply elem_of_cons in Hk as [->|Hk]; [done|]).
        by apply elem_of_nil in Hk. }
      apply (Hstop ["poverty_rate"; "unemployment_rate"]
               "median_household_income_econ" _ eq_refl); [done..|].
      by apply (Hfirst ["poverty_rate"; "unemployment_rate"]
                  "median_household_income_econ" _ eq_refl). }
  unfold col4_gini.
  destruct (decide ("gini_index" ∈ columns df)) as [H4|H4];
    [rewrite (row_getitem_column df td "gini_index"),
       (getitem_column df "gini_index") by done
    |rewrite (row_getitem_missing df td "gini_index") by done]; result_simpl.
  2:{ assert (∀ k, k ∈ ["poverty_rate"; "unemployment_rate";
                         "median_household_income_econ"] → k ∈ columns df) as Hpre.
      { intros k Hk. repeat (apply elem_of_cons in Hk as [->|Hk]; [done|]).
        by apply elem_of_nil in Hk. }
      apply (Hstop ["poverty_rate"; "unemployment_rate"; "median_household_income_econ"]
               "gini_index" _ eq_refl); [done..|].
      by apply (Hfirst ["poverty_rate"; "unemployment_rate";
                        "median_household_income_econ"] "gini_index" _ eq_refl). }
  assert (∀ key, key ∈ key_indicator_keys → key ∈ columns df) as Hall.
  { intros key Hkey. unfold key_indicator_keys in Hkey.
    repeat (apply elem_of_cons in Hkey as [->|Hkey]; [done|]).
    by apply elem_of_nil in Hkey. }
  split_and!.
  - intros Hno. by destruct (Hno td Hin).
  - intros td' pre key post _ E _ Hkey. destruct Hkey. apply Hall. rewrite E.
    apply elem_of_app. right. left.
  - intros td' [= <-] _ Hnn. unfold kept_metrics in Hnn.
    rewrite filter_app in Hnn.
    destruct (show_metrics_completes df td housing_economic_metrics) as [he ->].
    { intros m Hm. apply Hnn, elem_of_app. by left. }
    result_simpl.
    destruct (show_metrics_completes df td health_education_metrics) as [hd ->].
    { intros m Hm. apply Hnn, elem_of_app. by right. }
    result_simpl.
    destruct (radar_loop_Ok df td comparison_indicators
                {| tract_values := []; city_values := []; labels := [] |}) as [rc Hrc].
    unfold radar. rewrite Hrc. result_simpl. by eexists.
  - intros _. split; [by exists td|done].
Qed.

End views.

(** ** Radar labels *)

Section radar_labels.
Import Dashboard.

Lemma upper_underscore (c : ascii) : Str.upper c = "_"%char → c = "_"%char.
Proof. destruct c as [[] [] [] [] [] [] [] []]; by vm_compute. Qed.

Lemma lower_underscore (c : ascii) : Str.lower c = "_"%char → c = "_"%char.
Proof. destruct c as [[] [] [] [] [] [] [] []]; by vm_compute. Qed.

Lemma replace_chars (old new : ascii) (s : string) :
  chars (Str.replace old new s)
    = (λ c, if decide (c = old) then new else c) <$> chars s.
Proof. induction s as [|c s IH]; [done|]. simpl. by rewrite IH. Qed.

Lemma title_from_length (b : bool) (s : string) :
  length (chars (Str.title_from b s)) = length (chars s).
Proof. revert b. induction s as [|c s IH]; intros b; [done|]. simpl. by rewrite IH. Qed.

Lemma title_from_underscore (b : bool) (s : string) :
  "_"%char ∈ chars (Str.title_from b s) → "_"%char ∈ chars s.
Proof.
  revert b. induction s as [|c s IH]; intros b; [done|]. simpl.
  intros [Hc|Hs]%elem_of_cons.
  - symmetry in Hc. destruct b.
    + apply lower_underscore in Hc as ->. left.
    + apply upper_underscore in Hc as ->. left.
  - right. by apply (IH _ Hs).
Qed.

(** X23.  A radar label has as many characters as the indicator key it
    is made from, and contains no underscore. *)
Theorem radar_label_shape (ind : string) :
  String.length (radar_label ind) = String.length ind ∧
  "_"%char ∉ chars (radar_label ind).
Proof.
  unfold radar_label, Str.title. split.
  - rewrite <-!chars_length, title_from_length, replace_chars.
    by rewrite length_fmap.
  - intros H%title_from_underscore. rewrite replace_chars in H.
    apply list_elem_of_fmap in H as (c & Hc & _). by case_decide.
Qed.

End radar_labels.

(** ** An empty dataset *)

Section empty_dataset.
Import Dashboard.
Context (sqrt : Qc → Qc).

(** X24.  When the data file holds a table without rows, the
    neighborhood explorer raises [IndexError] for every selection, while
    the city overview (its columns present) renders with a tract count
    of 0 and every figure NaN. *)
Theorem empty_dataset_views (fs : gmap string File) (df : DataFrame) :
  fs !! data_path = Some (Table df) →
  rows df = [] →
  (∀ selected_tract,
     main sqrt fs (NeighborhoodExplorerView selected_tract) = Raise IndexError) ∧
  (∀ indicator,
     "poverty_rate" ∈ columns df → "unemployment_rate" ∈ columns df →
     "median_household_income_econ" ∈ columns df → indicator ∈ columns df →
     main sqrt fs (CityOverviewView indicator)
       = Ok ([], Some (CityOverviewPage
                         {| census_tracts := 0;
                            avg_poverty := NaN; avg_unemployment := NaN;
                            median_income := NaN;
                            stat_min := NaN; stat_median := NaN;
                            stat_max := NaN; stat_std := NaN |}))).
Proof.
  intros Hfs Hrows. unfold main, load_data, read_csv. rewrite Hfs. split.
  - intros selected_tract. cbn [mbind result_bind fmap result_fmap].
    unfold show_neighborhood_explorer, select_tract. by rewrite Hrows.
  - intros indicator H1 H2 H3 H4.
    unfold show_city_overview, statistics, DF.len.
    rewrite (getitem_column df "poverty_rate"),
      (getitem_column df "unemployment_rate"),
      (getitem_column df "median_household_income_econ"),
      (getitem_column df indicator) by done.
    unfold DF.column. by rewrite Hrows.
Qed.

End empty_dataset.

Lemma empty_dataset_views_witness :
  Dashboard.main Qc_sqrt header_only_fs
    (Dashboard.NeighborhoodExplorerView "Tract 010100") = Raise IndexError.
Proof.
  apply (empty_dataset_views Qc_sqrt header_only_fs header_only); reflexivity.
Defined.
